(** * sycl-aspect-filter: a shallow embedding and its properties

    The development follows [llvm/tools/sycl-aspect-filter/sycl-aspect-filter.cpp].
    The tool reads a file table, looks at the property file named in every
    row, and writes a table to the output file.  The pieces of LLVM's support
    library the tool calls ([StringRef], [line_iterator], [sys::path],
    [util::SimpleTable], the file system) are modelled in modules of their
    own; [filterTable] and [main] are transcribed statement by statement. *)

From Stdlib Require Import Ascii.
From stdpp Require Import gmap strings list.

Local Open Scope nat_scope.

(** ** Characters and small string helpers *)

Definition LF : ascii := "010"%char.
Definition nl : string := String LF "".

Fixpoint has_char (c : ascii) (s : string) : bool :=
  match s with
  | EmptyString => false
  | String a s' => if Ascii.eqb a c then true else has_char c s'
  end.

Definition is_empty (s : string) : bool :=
  match s with EmptyString => true | String _ _ => false end.

(** ** llvm::StringRef

    The operations of [StringRef] that the tool uses; llvm/ADT/StringRef is
    not among the sources.  Lengths and positions are [size_t]: 64-bit
    unsigned, so [size() - 2] wraps around. *)
Module StringRef.

Definition size (s : string) : nat := String.length s.

Fixpoint drop_front (n : nat) (s : string) : string :=
  match n, s with
  | O, _ => s
  | S _, EmptyString => EmptyString
  | S n', String _ s' => drop_front n' s'
  end.

(** The first [n] characters; the count is a [size_t], kept in binary. *)
Fixpoint take_front (n : Z) (s : string) : string :=
  match s with
  | EmptyString => EmptyString
  | String a s' =>
      if (0 <? n)%Z then String a (take_front (n - 1)%Z s') else EmptyString
  end.

(** Modelled from the spec: [StringRef::substr(Start, N)], not among the
    sources.  [Start] is clamped to the length, and at most [N] characters
    are taken. *)
Definition substr (s : string) (Start : nat) (N : Z) : string :=
  take_front N (drop_front (Nat.min Start (size s)) s).

(** Modelled from the spec: [StringRef::substr(Start)], not among the
    sources.  [N] is left to its default, [npos], which stands for all the
    rest of the string. *)
Definition substr_from (s : string) (Start : nat) : string :=
  drop_front (Nat.min Start (size s)) s.

(** [size() - k] in [size_t] arithmetic. *)
Definition size_minus (s : string) (k : Z) : Z :=
  ((Z.of_nat (size s) - k) mod 2 ^ 64)%Z.

(** Modelled from the spec: [StringRef::starts_with], not among the sources:
    whether the line begins with the key. *)
Definition starts_with (s pre : string) : bool := String.prefix pre s.

(** [operator==] on two [StringRef]s. *)
Definition equals (s1 s2 : string) : bool := String.eqb s1 s2.

(** Modelled from the spec: [StringRef::find(Str)], not among the sources:
    the position of the first occurrence of the literal, [None] for [npos]
    when it is not present. *)
Fixpoint find (s needle : string) : option nat :=
  if String.prefix needle s then Some O
  else match s with
       | EmptyString => None
       | String _ s' => S <$> find s' needle
       end.

(** Modelled from the spec: [StringRef::split(Out, Separator)], not among
    the sources, with the default [MaxSplit = -1] and [KeepEmpty = true], for
    a one-character separator: every piece between two separators, the empty
    ones included. *)
Fixpoint split (sep : ascii) (s : string) : list string :=
  match s with
  | EmptyString => [EmptyString]
  | String a s' =>
      if Ascii.eqb a sep then EmptyString :: split sep s'
      else match split sep s' with
           | [] => [String a EmptyString]
           | piece :: pieces => String a piece :: pieces
           end
  end.

End StringRef.

(** [join sep] is what a loop that prints the separator before every element
    but the first one produces. *)
Fixpoint join (sep : ascii) (l : list string) : string :=
  match l with
  | [] => EmptyString
  | [x] => x
  | x :: rest => x +:+ String sep (join sep rest)
  end.

(** ** llvm::util::SimpleTable *)
Module SimpleTable.

Record t : Type := mk {
  ColumnNames : list string;
  Rows : list (list string)
}.

Definition COL_SEP : ascii := "|"%char.

Fixpoint index_of (name : string) (l : list string) (i : Z) : Z :=
  match l with
  | [] => (-1)%Z
  | x :: rest => if String.eqb x name then i else index_of name rest (i + 1)%Z
  end.

(** Modelled from the spec: [SimpleTable::getColumnId]
    (llvm/Support/SimpleTable, not among the sources): the position of the
    column, [-1] when the table has no column of that name. *)
Definition getColumnId (T : t) (ColName : string) : Z :=
  index_of ColName (ColumnNames T) 0%Z.

(** Modelled from the spec: [SimpleTable::Row::getCell]
    (llvm/Support/SimpleTable, not among the sources): the cell of the row in
    the named column. *)
Definition getCell (T : t) (R : list string) (ColName : string) : string :=
  nth (Z.to_nat (getColumnId T ColName)) R EmptyString.

Definition valid_names (names : list string) : bool :=
  bool_decide (NoDup names) && forallb (fun n => negb (is_empty n)) names.

(** Modelled from the spec: [SimpleTable::create] lives in
    llvm/Support/SimpleTable, which is not among the sources.  It builds a
    table with the given column names and no rows; a duplicate or empty
    column name is an error, as for the header that [read] parses. *)
Definition create (names : list string) : option t :=
  if valid_names names then Some (mk names []) else None.

Definition header_line (T : t) : string :=
  String "["%char (join COL_SEP (ColumnNames T)) +:+ "]".

Fixpoint row_lines (rows : list (list string)) : string :=
  match rows with
  | [] => EmptyString
  | R :: rest => join COL_SEP R +:+ nl +:+ row_lines rest
  end.

(** Modelled from the spec: [SimpleTable::write] (llvm/Support/SimpleTable,
    not among the sources) emits the bracketed header line, if requested,
    followed by one [|]-joined line per row, in row and column order. *)
Definition write (T : t) (WriteTitles : bool) : string :=
  (if WriteTitles then header_line T +:+ nl else EmptyString)
  +:+ row_lines (Rows T).

Fixpoint strip_last (c : ascii) (s : string) : option string :=
  match s with
  | EmptyString => None
  | String a EmptyString => if Ascii.eqb a c then Some EmptyString else None
  | String a s' => String a <$> strip_last c s'
  end.

(** A line of the form [[col1|col2|...]], without its brackets. *)
Definition bracketed (line : string) : option string :=
  match line with
  | String a rest => if Ascii.eqb a "["%char then strip_last "]"%char rest else None
  | EmptyString => None
  end.

Definition parse_header (line : string) : option (list string) :=
  inner ← bracketed line;
  let names := StringRef.split COL_SEP inner in
  if valid_names names then Some names else None.

Definition arity_ok (n : nat) (R : list string) : bool := length R =? n.

(** Modelled from the spec: [SimpleTable::read] (llvm/Support/SimpleTable,
    not among the sources).  The first line must be of the form
    [[col1|col2|...]]; the brackets are stripped and the rest is split on
    [|] into unique, non-empty column names.  Every later non-empty line is
    split on [|] into the cells of one row; a row whose cell count differs
    from the column count is a format error ([None]). *)
Definition read (buf : string) : option t :=
  match StringRef.split LF buf with
  | [] => None
  | first :: rest =>
      names ← parse_header first;
      let rows :=
        map (StringRef.split COL_SEP)
            (List.filter (fun l => negb (is_empty l)) rest) in
      if forallb (arity_ok (length names)) rows
      then Some (mk names rows) else None
  end.

(** The invariants of the data model: unique (and non-empty) column names,
    and every row has one cell per column. *)
Definition well_formed (T : t) : Prop :=
  valid_names (ColumnNames T) = true ∧
  Forall (fun R => length R = length (ColumnNames T)) (Rows T).

Definition plain (s : string) : bool :=
  negb (has_char COL_SEP s) && negb (has_char LF s).

(** What the text format can carry: at least one column, column names that
    are non-empty, and no separator or line break inside a name or a cell;
    no row that would print as an empty line. *)
Definition encodable (T : t) : Prop :=
  ColumnNames T ≠ [] ∧
  valid_names (ColumnNames T) = true ∧
  forallb plain (ColumnNames T) = true ∧
  Forall (fun R => length R = length (ColumnNames T)
                   ∧ forallb plain R = true
                   ∧ R ≠ [EmptyString]) (Rows T).

End SimpleTable.

(** ** llvm::sys::path *)
Module path.

Definition SEP : ascii := "/"%char.

(** Modelled from the spec: [sys::path::filename] (llvm/Support/Path, not
    among the sources).  For a POSIX path that names a file it is the
    component after the last separator; root names and trailing separators
    are not given a meaning of their own here. *)
Definition filename (p : string) : string :=
  List.last (StringRef.split SEP p) EmptyString.

Fixpoint find_last_of (c : ascii) (s : string) : option nat :=
  match s with
  | EmptyString => None
  | String a s' =>
      match find_last_of c s' with
      | Some i => Some (S i)
      | None => if Ascii.eqb a c then Some O else None
      end
  end.

Definition dots (fname : string) : bool :=
  String.eqb fname "." || String.eqb fname "..".

(** Modelled from the spec: [sys::path::stem] (llvm/Support/Path, not among
    the sources): the file name up to its last dot, the whole file name
    when it has no dot or is [.] or [..]. *)
Definition stem (p : string) : string :=
  let fname := filename p in
  match find_last_of "."%char fname with
  | None => fname
  | Some pos =>
      if dots fname then fname
      else StringRef.substr fname 0 (Z.of_nat pos)
  end.

(** Modelled from the spec: [sys::path::extension] (llvm/Support/Path, not
    among the sources): the file name from its last dot on, the dot
    included; empty when [stem] is the whole file name. *)
Definition extension (p : string) : string :=
  let fname := filename p in
  match find_last_of "."%char fname with
  | None => EmptyString
  | Some pos =>
      if dots fname then EmptyString
      else StringRef.substr_from fname pos
  end.

(** The path without its last component: the directory part, with its
    trailing separator. *)
Definition directory_part (p : string) : string :=
  StringRef.take_front
    (Z.of_nat (StringRef.size p - StringRef.size (filename p))) p.

End path.

(** ** The file system

    A path names a regular file with its contents, or something that exists
    but cannot be read as a file (a directory, a file without permission). *)
Inductive node : Type :=
  | RegularFile (contents : string)
  | Unreadable.

Record FileSystem : Type := mkFS {
  nodes : gmap string node;
  stdin : string;
  creatable : string -> bool
}.

(** The file system after [text] was written to the file [p]; paths are
    names, and two names are two files. *)
Definition with_file (F : FileSystem) (p text : string) : FileSystem :=
  mkFS (<[p := RegularFile text]> (nodes F)) (stdin F) (creatable F).

Module fs.

(** Modelled from the spec: [sys::fs::exists] (llvm/Support/FileSystem, not
    among the sources): whether the path names something. *)
Definition exists_ (F : FileSystem) (p : string) : bool :=
  bool_decide (is_Some (nodes F !! p)).

(** Modelled from the spec: [MemoryBuffer::getFileAsStream]
    (llvm/Support/MemoryBuffer, not among the sources): the contents of the
    file, [None] for an error code when it cannot be read. *)
Definition getFileAsStream (F : FileSystem) (p : string) : option string :=
  match nodes F !! p with
  | Some (RegularFile s) => Some s
  | _ => None
  end.

(** Modelled from the spec: [MemoryBuffer::getFileOrSTDIN]
    (llvm/Support/MemoryBuffer, not among the sources): as above, and the
    name [-] stands for the standard input, which is read and stays as it
    is. *)
Definition getFileOrSTDIN (F : FileSystem) (p : string) : option string :=
  if String.eqb p "-" then Some (stdin F) else getFileAsStream F p.

(** Modelled from the spec: [raw_fd_ostream OS{Name, EC, OF_None}]
    (llvm/Support/raw_ostream, not among the sources) followed by the writes
    to [OS] and its destruction: the file is created or truncated, and holds
    what was written; [None] when the file cannot be opened ([EC] is set). *)
Definition open_write_close (F : FileSystem) (p : string) (text : string)
  : option FileSystem :=
  if creatable F p then Some (with_file F p text) else None.

End fs.

(** ** llvm::MemoryBuffer and llvm::line_iterator *)

(** A [StringRef] into a buffer: the position of its first character in the
    buffer, and its characters. *)
Record Line : Type := mkLine {
  data : nat;
  text : string
}.

Module MemoryBuffer.

(** The buffer as it sits in memory: the characters of the file, followed
    by the terminating NUL. *)
Definition bytes (buf : string) : list Z :=
  map (fun b => Z.of_N (Byte.to_N b)) (String.list_byte_of_string buf) ++ [0%Z].

(** [reinterpret_cast<const uint32_t *>(p)[0]]: four bytes from position
    [p] on, least significant first (the hosts the toolchain runs on are
    little-endian).  [None] when one of the four lies outside the buffer:
    the behaviour of such a read is undefined.  Inside the buffer the value
    is the one such a host yields for the read, aligned or not. *)
Definition load_u32 (buf : string) (p : nat) : option Z :=
  match drop p (bytes buf) with
  | b0 :: b1 :: b2 :: b3 :: _ =>
      Some (Z.lor b0 (Z.lor (Z.shiftl b1 8)
              (Z.lor (Z.shiftl b2 16) (Z.shiftl b3 24))))
  | _ => None
  end.

End MemoryBuffer.

Module line_iterator.

Fixpoint with_offsets (off : nat) (segments : list string) : list Line :=
  match segments with
  | [] => []
  | seg :: rest =>
      mkLine off seg :: with_offsets (off + StringRef.size seg + 1) rest
  end.

(** Modelled from the spec: [line_iterator] (llvm/Support/LineIterator, not
    among the sources) walks the lines of a buffer, which line feeds
    separate, blank lines skipped.  The iterator is represented by the lines
    it has yet to yield, the current one first; the empty list is the
    iterator at its end.  A carriage return before a line feed and a NUL
    inside the file are not given a meaning of their own here (the iterator
    proper drops the one and stops at the other): what is stated of the lines
    of a file beyond a sample run is stated for files without either. *)
Definition make (buf : string) : list Line :=
  List.filter (fun L => negb (is_empty (text L)))
              (with_offsets 0 (StringRef.split LF buf)).

(** Modelled from the spec: [*LI] (llvm/Support/LineIterator, not among the
    sources): the current line; the empty [StringRef] at the end. *)
Definition deref (LI : list Line) : Line :=
  match LI with
  | [] => mkLine 0 EmptyString
  | L :: _ => L
  end.

(** Modelled from the spec: [LI++] (llvm/Support/LineIterator, not among
    the sources); advancing an iterator that is at its end is not allowed
    ([None]). *)
Definition advance (LI : list Line) : option (list Line) :=
  match LI with
  | [] => None
  | _ :: rest => Some rest
  end.

End line_iterator.

(** The lines of a buffer, as the iterator yields them. *)
Definition lines (buf : string) : list string :=
  map text (line_iterator.make buf).

(** ** Runs of the tool

    A computation of the tool ends normally with a value, ends the process
    through [error] (diagnostic on the error stream, [exit(1)]), has undefined
    behaviour, or is still inside a loop when the fuel given to that loop is
    used up.  The tool calls [error] before it opens the output file, or
    because it could not open it: at a [Fatal] outcome the file system is the
    one the run started with. *)
Inductive Outcome (A : Type) : Type :=
  | Normal (a : A)
  | Fatal (diagnostic : string)
  | Undefined
  | OutOfFuel.
Arguments Normal {A} a.
Arguments Fatal {A} diagnostic.
Arguments Undefined {A}.
Arguments OutOfFuel {A}.

#[global] Instance Outcome_bind : MBind Outcome := fun A B f m =>
  match m with
  | Normal a => f a
  | Fatal d => Fatal d
  | Undefined => Undefined
  | OutOfFuel => OutOfFuel
  end.

(** [error(Message)] *)
Definition error {A : Type} (Message : string) : Outcome A :=
  Fatal ("sycl-aspect-filter: " +:+ Message +:+ nl).

(** The command line options, as [cl::ParseCommandLineOptions] leaves them;
    an option that was not given is the empty string. *)
Record Options : Type := mkOptions {
  InputFilename : string;
  Output : string;
  Target : string;
  DeviceConfigFile : string
}.

Definition SECTION : string := "[SYCL/device requirements]".

(** The condition of the loop over the entries of the section. *)
Definition recognized (L : string) : bool :=
  StringRef.starts_with L "aspects"
  || StringRef.starts_with L "reqd_sub_group_size"
  || StringRef.starts_with L "fixed_target".

(** [substr(size).data()]: where the payload of an entry starts. *)
Definition payload_data (L : Line) (size : nat) : nat :=
  data L + Nat.min size (StringRef.size (text L)).

(** The loop of lines 82-104.  No path through its body moves [LI]; the
    three tests on [false] never take their [continue].  [fuel] bounds the
    number of times the condition is evaluated.  What the body prints on the
    standard output, the value of [Array[0]], is not kept.  This is the loop
    as it is written: on the key [aspects] alone every turn prints; on any
    other recognized line the body does nothing at all, and a compiler may
    take a loop without effects to end. *)
Fixpoint requirements_loop (fuel : nat) (buf : string) (LI : list Line)
  : Outcome unit :=
  match fuel with
  | O => OutOfFuel
  | S fuel' =>
      let L := line_iterator.deref LI in
      if recognized (text L) then
        if StringRef.equals (text L) "aspects" then
          let size := StringRef.size "aspects|" in
          match MemoryBuffer.load_u32 buf (payload_data L size) with
          | None => Undefined
          | Some _ => requirements_loop fuel' buf LI
          end
        else if StringRef.equals (text L) "reqd_sub_group_size" then
          requirements_loop fuel' buf LI
        else if StringRef.equals (text L) "fixed_target" then
          requirements_loop fuel' buf LI
        else requirements_loop fuel' buf LI
      else Normal ()
  end.

(** The loop of lines 78-79: [LI++] while [*LI] is not the section header. *)
Fixpoint skip_to_section (LI : list Line) : Outcome (list Line) :=
  match LI with
  | [] => Undefined
  | L :: rest =>
      if StringRef.equals (text L) SECTION then Normal LI
      else skip_to_section rest
  end.

(** The body of the loop over the rows, lines 65-104; [Normal] is the end of
    the body or its [continue]. *)
Definition check_property_file (fuel : nat) (F : FileSystem) (PropFile : string)
  : Outcome unit :=
  match fs.getFileAsStream F PropFile with
  | None => error ("Can't read the property file " +:+ PropFile)
  | Some Properties =>
      match StringRef.find Properties SECTION with
      | None => Normal ()
      | Some _ =>
          LI ← skip_to_section (line_iterator.make Properties);
          match line_iterator.advance LI with
          | None => Undefined
          | Some LI' => requirements_loop fuel Properties LI'
          end
      end
  end.

(** The loop over the rows, lines 64-105: row [i] for [i] from [0] up to
    [getNumRows()]. *)
Fixpoint check_rows (fuel : nat) (F : FileSystem) (Table : SimpleTable.t)
    (rows : list (list string)) : Outcome unit :=
  match rows with
  | [] => Normal ()
  | R :: rest =>
      _ ← check_property_file fuel F (SimpleTable.getCell Table R "Properties");
      check_rows fuel F Table rest
  end.

(** Lines 47-50. *)
Definition OutputFileName (O : Options) : string :=
  if is_empty (Output O)
  then path.stem (InputFilename O) +:+ "_filtered"
       +:+ path.extension (InputFilename O)
  else Output O.

(** Lines 54-58 and 123-127: open the output file, write the table with its
    titles. *)
Definition write_output (O : Options) (F : FileSystem) (T : SimpleTable.t)
  : Outcome FileSystem :=
  match fs.open_write_close F (OutputFileName O) (SimpleTable.write T true) with
  | None => error ("Can't open the output file " +:+ OutputFileName O)
  | Some F' => Normal F'
  end.

(** [filterTable]: the file system after the call. *)
Definition filterTable (fuel : nat) (O : Options) (F : FileSystem)
    (Table : SimpleTable.t) : Outcome FileSystem :=
  if (SimpleTable.getColumnId Table "Properties" =? -1)%Z then
    write_output O F Table
  else
    _ ← check_rows fuel F Table (SimpleTable.Rows Table);
    match fs.getFileAsStream F (InputFilename O) with
    | None => Undefined
    | Some buf =>
        let FirstLine := text (line_iterator.deref (line_iterator.make buf)) in
        let ColumnNames :=
          StringRef.split SimpleTable.COL_SEP
            (StringRef.substr FirstLine 1 (StringRef.size_minus FirstLine 2)) in
        match SimpleTable.create ColumnNames with
        | None => error "Failed to create a new table"
        | Some NewTable => write_output O F NewTable
        end
    end.

(** [SimpleTable::read(FileName)] *)
Definition read_table (F : FileSystem) (p : string) : option SimpleTable.t :=
  fs.getFileAsStream F p ≫= SimpleTable.read.

(** [main]: [Normal F'] is [return 0] with the file system [F']; [Fatal] is
    [exit(1)].  The text of the error code is left out of the diagnostic of
    line 150. *)
Definition main (fuel : nat) (O : Options) (F : FileSystem) : Outcome FileSystem :=
  if is_empty (InputFilename O) then error "Input file not provided."
  else if negb (fs.exists_ F (InputFilename O)) then
    error ("Input file '" +:+ InputFilename O +:+ "' not found.")
  else if is_empty (Target O) then error "Target not provided."
  else if is_empty (DeviceConfigFile O) then
    error "Path to the device configuration file not provided."
  else if negb (fs.exists_ F (DeviceConfigFile O)) then
    error ("Device configuration file '" +:+ DeviceConfigFile O +:+ "' not found.")
  else
    match fs.getFileOrSTDIN F (InputFilename O) with
    | None => error "Could not open input file: "
    | Some _ =>
        match read_table F (InputFilename O) with
        | None => error "Can't read the input table"
        | Some Table => filterTable fuel O F Table
        end
    end.

Definition exit_code {A : Type} (r : Outcome A) : option Z :=
  match r with
  | Normal _ => Some 0%Z
  | Fatal _ => Some 1%Z
  | Undefined | OutOfFuel => None
  end.

(** ** Notions used in the statements *)

(** A buffer that fits the address space: its size is a [size_t]. *)
Definition addressable (buf : string) : Prop :=
  (Z.of_nat (StringRef.size buf) < 2 ^ 64)%Z.

(** A property file on which the loops of [filterTable] come to an end:
    the section header does not occur in it at all, or one of its lines is the
    header and the line after the first such line does not start with a
    recognized key. *)
Definition benign (Properties : string) : Prop :=
  StringRef.find Properties SECTION = None
  ∨ ∃ before after,
      lines Properties = before ++ SECTION :: after
      ∧ (SECTION ∉ before)
      ∧ recognized (List.hd EmptyString after) = false.

(** The default output path as the documentation of [-o] words it: the input
    path, directory part included, with [_filtered] between the stem and the
    extension of its file name. *)
Definition suffixed_input_path (p : string) : string :=
  path.directory_part p +:+ path.stem p +:+ "_filtered" +:+ path.extension p.

(** The table with the columns of [T] and no rows. *)
Definition header_only (T : SimpleTable.t) : SimpleTable.t :=
  SimpleTable.mk (SimpleTable.ColumnNames T) [].

(** ** Sample runs

    A file table with one row, the property file of that row with different
    contents, and a device configuration file. *)
Module Sample.

Definition manifest : string :=
  "[Code|Properties]" +:+ nl +:+ "a.bc|a.prop" +:+ nl.

Definition manifest_table : SimpleTable.t :=
  SimpleTable.mk ["Code"; "Properties"] [["a.bc"; "a.prop"]].

(** A table without a [Properties] column. *)
Definition host_manifest : string :=
  "[Code|Symbols]" +:+ nl +:+ "host.o|host.sym" +:+ nl.

Definition host_table : SimpleTable.t :=
  SimpleTable.mk ["Code"; "Symbols"] [["host.o"; "host.sym"]].

Definition devices : string := "intel_gpu_pvc:" +:+ nl +:+ "aspects=1,2,3" +:+ nl.

Definition options : Options :=
  mkOptions "t.table" "" "intel_gpu_pvc" "devices.cfg".

(** The files of a run: the table, the property file of its row, and the
    device configuration file; any file can be created. *)
Definition files (table props : string) : FileSystem :=
  mkFS (<["t.table" := RegularFile table]>
          (<["a.prop" := RegularFile props]>
             (<["devices.cfg" := RegularFile devices]> ∅)))
       "" (fun _ => true).

(** A property file without a device requirements section. *)
Definition other_section : string :=
  "[SYCL/kernel names]" +:+ nl +:+ "foo=1|1" +:+ nl.

(** A device requirements section that declares nothing. *)
Definition no_entries : string := SECTION +:+ nl.

(** The packed aspect 3: the bytes 03 00 00 00. *)
Definition aspect3 : string :=
  String "003" (String "000" (String "000" (String "000" ""))).

Definition aspects_entry : string :=
  SECTION +:+ nl +:+ "aspects|" +:+ aspect3 +:+ nl.

Definition sub_group_entry : string :=
  SECTION +:+ nl +:+ "reqd_sub_group_size|16" +:+ nl.

(** An [aspects] payload of three bytes: not a whole number of integers. *)
Definition short_payload : string :=
  SECTION +:+ nl +:+ "aspects|abc" +:+ nl.

(** An [aspects] line without a payload, followed by another section. *)
Definition bare_aspects : string :=
  SECTION +:+ nl +:+ "aspects" +:+ nl +:+ "[SYCL/kernel names]" +:+ nl.

(** The same at the very end of the file. *)
Definition bare_aspects_at_end : string := SECTION +:+ nl +:+ "aspects".

End Sample.

(** ** Notions used in the further properties *)

Definition NUL : ascii := "000"%char.
Definition CR : ascii := "013"%char.

(** A file of plain text lines: it holds no NUL and no carriage return.  On
    such a file the lines of the model are the lines that [line_iterator]
    yields: the iterator proper stops at the first NUL and takes a carriage
    return before a line feed as part of the line end. *)
Definition text_file (buf : string) : bool :=
  negb (has_char NUL buf) && negb (has_char CR buf).

(** A computation that takes fuel and either never comes to an end, or comes
    to the same end with any fuel from one unit on. *)
Definition settled {A : Type} (f : nat → Outcome A) : Prop :=
  (∀ n, f n = OutOfFuel)
  ∨ (f 1 ≠ OutOfFuel
     ∧ (∀ n, f (S n) = f 1)
     ∧ (f 0 = f 1 ∨ f 0 = OutOfFuel)).

(** A row whose property file is read and left behind by the loop over the
    rows. *)
Definition passes (F : FileSystem) (T : SimpleTable.t) (R : list string) : Prop :=
  ∃ Properties,
    fs.getFileAsStream F (SimpleTable.getCell T R "Properties") = Some Properties
    ∧ benign Properties.

(** A row that passes and whose property file is a file of plain text
    lines. *)
Definition passes_text (F : FileSystem) (T : SimpleTable.t) (R : list string)
  : Prop :=
  ∃ Properties,
    fs.getFileAsStream F (SimpleTable.getCell T R "Properties") = Some Properties
    ∧ text_file Properties = true
    ∧ benign Properties.

(** More sample files. *)
Module Scenario.

(** A table with two rows. *)
Definition manifest2 : string :=
  "[Code|Properties]" +:+ nl +:+ "a.bc|a.prop" +:+ nl +:+ "b.bc|b.prop" +:+ nl.

Definition table2 : SimpleTable.t :=
  SimpleTable.mk ["Code"; "Properties"] [["a.bc"; "a.prop"]; ["b.bc"; "b.prop"]].

(** A table with a [Properties] column and no row. *)
Definition empty_manifest : string := "[Code|Properties]" +:+ nl.

Definition empty_table : SimpleTable.t :=
  SimpleTable.mk ["Code"; "Properties"] [].

(** The section header inside a line, not as a line of its own. *)
Definition header_in_a_line : string :=
  "see " +:+ SECTION +:+ nl +:+ "aspects|abc" +:+ nl.

(** The files of a run on [manifest2]: [a.prop] holds [props], and [b.prop]
    is there, with [other], only when [other] is given. *)
Definition files2 (props : string) (other : option string) : FileSystem :=
  mkFS (<["t.table" := RegularFile manifest2]>
          (<["a.prop" := RegularFile props]>
             (<["devices.cfg" := RegularFile Sample.devices]>
                (match other with
                 | Some text => <["b.prop" := RegularFile text]> ∅
                 | None => ∅
                 end))))
       "" (fun _ => true).


End Scenario.

(** * Properties *)

(** ** Strings, [split] and [join] *)

Lemma has_char_app c a b :
  has_char c (a +:+ b) = has_char c a || has_char c b.
Proof.
  induction a as [|x a IH]; simpl; [done|].
  destruct (Ascii.eqb x c); [done|apply IH].
Qed.

Lemma append_empty s : s +:+ "" = s.
Proof. induction s as [|a s IH]; [done|]. exact (f_equal (String a) IH). Qed.

Lemma append_nl h r : (h +:+ nl) +:+ r = h +:+ String LF r.
Proof.
  induction h as [|a h IH]; [done|]. exact (f_equal (String a) IH).
Qed.

Lemma size_app a b :
  StringRef.size (a +:+ b) = StringRef.size a + StringRef.size b.
Proof.
  induction a as [|x a IH]; [done|].
  change (S (StringRef.size (a +:+ b)) = S (StringRef.size a + StringRef.size b)).
  by rewrite IH.
Qed.

Section Split.

Variable sep : ascii.

Lemma split_not_nil s : StringRef.split sep s ≠ [].
Proof.
  destruct s as [|a s]; simpl; [done|].
  destruct (Ascii.eqb a sep); [done|].
  destruct (StringRef.split sep s); done.
Qed.

(** After one step on a character that is not the separator. *)
Lemma split_cons_other a s :
  Ascii.eqb a sep = false →
  ∃ piece pieces,
    StringRef.split sep s = piece :: pieces
    ∧ StringRef.split sep (String a s) = String a piece :: pieces.
Proof.
  intros E. pose proof (split_not_nil s) as Hne. simpl. rewrite E.
  destruct (StringRef.split sep s) as [|piece pieces]; [done|].
  by exists piece, pieces.
Qed.

Lemma split_plain s :
  has_char sep s = false → StringRef.split sep s = [s].
Proof.
  induction s as [|a s IH]; simpl; [done|].
  destruct (Ascii.eqb a sep); [done|].
  intros H. by rewrite IH.
Qed.

(** Splitting goes through a separator. *)
Lemma split_app_general a b :
  StringRef.split sep (a +:+ String sep b)
  = StringRef.split sep a ++ StringRef.split sep b.
Proof.
  induction a as [|x a IH].
  - simpl. by rewrite Ascii.eqb_refl.
  - change (String x a +:+ String sep b) with (String x (a +:+ String sep b)).
    cbn [StringRef.split]. rewrite IH.
    destruct (Ascii.eqb x sep); [done|].
    pose proof (split_not_nil a) as Hne.
    by destruct (StringRef.split sep a).
Qed.

Lemma split_app a b :
  has_char sep a = false →
  StringRef.split sep (a +:+ String sep b) = a :: StringRef.split sep b.
Proof. intros H. by rewrite split_app_general, split_plain. Qed.

Lemma split_join l :
  l ≠ [] →
  forallb (fun x => negb (has_char sep x)) l = true →
  StringRef.split sep (join sep l) = l.
Proof.
  induction l as [|x l IH]; [done|].
  intros _ H. simpl in H. apply andb_true_iff in H as [Hx Hl].
  apply negb_true_iff in Hx.
  destruct l as [|y l].
  - simpl. by apply split_plain.
  - change (join sep (x :: y :: l)) with (x +:+ String sep (join sep (y :: l))).
    rewrite split_app by done. f_equal. by apply IH.
Qed.

Lemma join_split s : join sep (StringRef.split sep s) = s.
Proof.
  induction s as [|a s IH]; [done|].
  destruct (Ascii.eqb a sep) eqn:E.
  - simpl. rewrite E. apply Ascii.eqb_eq in E as ->.
    pose proof (split_not_nil s) as Hne.
    destruct (StringRef.split sep s) as [|p ps]; [done|].
    simpl. simpl in IH. by rewrite IH.
  - destruct (split_cons_other a s E) as (p & ps & Hs & ->).
    rewrite Hs in IH. rewrite <- IH. by destruct ps.
Qed.

(** No piece holds a character that the string does not hold; no piece holds
    the separator. *)
Lemma split_pieces_other c s :
  has_char c s = false →
  Forall (fun x => has_char c x = false) (StringRef.split sep s).
Proof.
  induction s as [|a s IH]; [by repeat constructor|].
  simpl. destruct (Ascii.eqb a c) eqn:Ec; [done|]. intros H.
  specialize (IH H).
  destruct (Ascii.eqb a sep) eqn:E; [by constructor|].
  destruct (StringRef.split sep s) as [|p ps].
  - repeat constructor. simpl. by rewrite Ec.
  - inversion IH; subst. constructor; [simpl; by rewrite Ec|done].
Qed.

Lemma split_pieces s :
  Forall (fun x => has_char sep x = false) (StringRef.split sep s).
Proof.
  induction s as [|a s IH]; simpl; [by constructor|].
  destruct (Ascii.eqb a sep) eqn:E; [by constructor|].
  destruct (StringRef.split sep s) as [|p ps].
  - repeat constructor. simpl. by rewrite E.
  - inversion IH; subst. constructor; [simpl; by rewrite E|done].
Qed.

Lemma split_sizes s :
  Forall (fun x => StringRef.size x ≤ StringRef.size s) (StringRef.split sep s).
Proof.
  unfold StringRef.size.
  induction s as [|a s IH]; simpl; [by repeat constructor|].
  destruct (Ascii.eqb a sep).
  - constructor; [simpl; lia|].
    eapply Forall_impl; [exact IH|]. simpl. intros; lia.
  - pose proof (split_not_nil s) as Hne.
    destruct (StringRef.split sep s) as [|p ps]; [done|].
    inversion IH; subst. constructor; [simpl in *; lia|].
    eapply Forall_impl; [eassumption|]. simpl. intros; lia.
Qed.

Lemma has_char_join c l :
  Ascii.eqb sep c = false →
  Forall (fun x => has_char c x = false) l →
  has_char c (join sep l) = false.
Proof.
  intros Hc. induction 1 as [|x l Hx Hl IH]; [done|].
  destruct l as [|y l]; [done|].
  change (join sep (x :: y :: l)) with (x +:+ String sep (join sep (y :: l))).
  rewrite has_char_app, Hx. simpl. by rewrite Hc.
Qed.

Lemma join_empty l :
  is_empty (join sep l) = true → l = [] ∨ l = [EmptyString].
Proof.
  destruct l as [|x l]; [by left|].
  destruct l as [|y l].
  - simpl. destruct x; [by right|done].
  - change (join sep (x :: y :: l)) with (x +:+ String sep (join sep (y :: l))).
    destruct x; done.
Qed.

End Split.

Lemma forallb_Forall_true {A} (f : A → bool) l :
  forallb f l = true ↔ Forall (fun x => f x = true) l.
Proof.
  induction l as [|x l IH]; simpl.
  - split; [by constructor|done].
  - rewrite andb_true_iff, IH. split.
    + intros [??]. by constructor.
    + by inversion 1.
Qed.

(** ** The table codec *)

Lemma strip_last_app c s :
  SimpleTable.strip_last c (s +:+ String c EmptyString) = Some s.
Proof.
  induction s as [|a s IH]; simpl.
  - by rewrite Ascii.eqb_refl.
  - destruct s as [|b s]; simpl in *.
    + by rewrite Ascii.eqb_refl.
    + by rewrite IH.
Qed.

Lemma strip_last_inv c s inner :
  SimpleTable.strip_last c s = Some inner → s = inner +:+ String c EmptyString.
Proof.
  revert inner. induction s as [|a s IH]; intros inner; simpl; [done|].
  destruct s as [|b s].
  - destruct (Ascii.eqb a c) eqn:E; [|done].
    apply Ascii.eqb_eq in E as ->. by intros [= <-].
  - destruct (SimpleTable.strip_last c (String b s)) as [r|] eqn:E; [|done].
    intros [= <-]. by rewrite (IH r eq_refl).
Qed.

Lemma bracketed_inv line inner :
  SimpleTable.bracketed line = Some inner →
  line = String "["%char (inner +:+ "]").
Proof.
  destruct line as [|a rest]; simpl; [done|].
  destruct (Ascii.eqb a "["%char) eqn:E; [|done].
  apply Ascii.eqb_eq in E as ->. intros H.
  by rewrite (strip_last_inv _ _ _ H).
Qed.

Lemma bracketed_header T :
  SimpleTable.bracketed (SimpleTable.header_line T)
  = Some (join SimpleTable.COL_SEP (SimpleTable.ColumnNames T)).
Proof. unfold SimpleTable.header_line. simpl. apply strip_last_app. Qed.

Lemma bracketed_no_LF first inner :
  SimpleTable.bracketed first = Some inner →
  has_char LF first = false → has_char LF inner = false.
Proof.
  intros Hb. rewrite (bracketed_inv _ _ Hb). simpl.
  rewrite has_char_app. by intros [? _]%orb_false_iff.
Qed.

(** [plain] in its two halves. *)
Lemma plain_iff s :
  SimpleTable.plain s = true
  ↔ has_char SimpleTable.COL_SEP s = false ∧ has_char LF s = false.
Proof.
  unfold SimpleTable.plain. rewrite andb_true_iff, !negb_true_iff. tauto.
Qed.

Lemma plain_no_sep l :
  forallb SimpleTable.plain l = true →
  forallb (fun x => negb (has_char SimpleTable.COL_SEP x)) l = true.
Proof.
  rewrite !forallb_Forall_true. intros H. eapply Forall_impl; [exact H|].
  intros s [Hs _]%plain_iff. by rewrite Hs.
Qed.

Lemma plain_no_LF l :
  forallb SimpleTable.plain l = true →
  Forall (fun x => has_char LF x = false) l.
Proof.
  rewrite forallb_Forall_true. intros H. eapply Forall_impl; [exact H|].
  by intros s [_ Hs]%plain_iff.
Qed.

Lemma plain_pieces l :
  has_char LF l = false →
  forallb SimpleTable.plain (StringRef.split SimpleTable.COL_SEP l) = true.
Proof.
  intros H. apply forallb_Forall_true.
  pose proof (split_pieces SimpleTable.COL_SEP l) as H1.
  pose proof (split_pieces_other SimpleTable.COL_SEP LF l H) as H2.
  revert H1 H2. generalize (StringRef.split SimpleTable.COL_SEP l).
  induction 1 as [|x xs Hx _ IH]; [by constructor|].
  inversion 1; subst. constructor; [by apply plain_iff|by apply IH].
Qed.

Lemma header_no_LF T :
  forallb SimpleTable.plain (SimpleTable.ColumnNames T) = true →
  has_char LF (SimpleTable.header_line T) = false.
Proof.
  intros H. unfold SimpleTable.header_line. simpl.
  rewrite has_char_app, has_char_join; [done|done|by apply plain_no_LF].
Qed.

Lemma arity_check n rows :
  Forall (fun R => length R = n) rows →
  forallb (SimpleTable.arity_ok n) rows = true.
Proof.
  rewrite forallb_Forall_true. intros H. eapply Forall_impl; [exact H|].
  intros R HR. by apply Nat.eqb_eq.
Qed.

(** The lines written for the rows are read back as the rows. *)
Lemma rows_roundtrip n rows :
  n ≠ 0 →
  Forall (fun R => length R = n ∧ forallb SimpleTable.plain R = true
                   ∧ R ≠ [EmptyString]) rows →
  map (StringRef.split SimpleTable.COL_SEP)
      (List.filter (fun l => negb (is_empty l))
         (StringRef.split LF (SimpleTable.row_lines rows))) = rows.
Proof.
  intros Hn. induction 1 as [|R rows (Hlen & Hplain & Hne) _ IH]; [done|].
  cbn [SimpleTable.row_lines].
  change (nl +:+ SimpleTable.row_lines rows)
    with (String LF (SimpleTable.row_lines rows)).
  rewrite split_app
    by (apply has_char_join; [done|by apply plain_no_LF]).
  cbn [List.filter].
  destruct (is_empty (join SimpleTable.COL_SEP R)) eqn:E.
  { apply join_empty in E as [->| ->]; [simpl in Hlen; lia|done]. }
  cbn [negb map]. rewrite IH. f_equal.
  apply split_join; [|by apply plain_no_sep].
  intros ->. simpl in Hlen. lia.
Qed.

(** Decoding the encoding of a table that the format can carry gives the
    table back. *)
Lemma read_write T :
  SimpleTable.encodable T →
  SimpleTable.read (SimpleTable.write T true) = Some T.
Proof.
  intros (Hcols & Hvalid & Hplain & Hrows).
  unfold SimpleTable.read, SimpleTable.write.
  rewrite append_nl, split_app by by apply header_no_LF.
  unfold SimpleTable.parse_header. rewrite bracketed_header. cbn [mbind option_bind].
  rewrite split_join by (done || by apply plain_no_sep).
  rewrite Hvalid.
  rewrite rows_roundtrip with (n := length (SimpleTable.ColumnNames T)); cycle 1.
  { by destruct (SimpleTable.ColumnNames T). }
  { done. }
  cbn [mbind option_bind].
  rewrite arity_check; [by destruct T|].
  eapply Forall_impl; [exact Hrows|]. by intros R (? & _).
Qed.

(** What a successful [read] tells about the buffer. *)
Lemma read_inv buf T :
  SimpleTable.read buf = Some T →
  ∃ first rest inner,
    StringRef.split LF buf = first :: rest
    ∧ SimpleTable.bracketed first = Some inner
    ∧ SimpleTable.ColumnNames T = StringRef.split SimpleTable.COL_SEP inner
    ∧ SimpleTable.valid_names (SimpleTable.ColumnNames T) = true
    ∧ SimpleTable.Rows T
      = map (StringRef.split SimpleTable.COL_SEP)
          (List.filter (fun l => negb (is_empty l)) rest)
    ∧ Forall (fun R => length R = length (SimpleTable.ColumnNames T))
        (SimpleTable.Rows T).
Proof.
  unfold SimpleTable.read, SimpleTable.parse_header.
  destruct (StringRef.split LF buf) as [|first rest]; [done|].
  destruct (SimpleTable.bracketed first) as [inner|] eqn:Hb; [|done].
  cbn [mbind option_bind].
  destruct (SimpleTable.valid_names _) eqn:Hvalid; [|done].
  cbn [mbind option_bind].
  destruct (forallb _ _) eqn:Har; [|done].
  intros [= <-]. exists first, rest, inner. cbn.
  repeat split; try done.
  apply forallb_Forall_true in Har.
  eapply Forall_impl; [exact Har|].
  intros R HR. by apply Nat.eqb_eq in HR.
Qed.

(** A table that [read] produced is one that the format can carry. *)
Lemma read_encodable buf T :
  SimpleTable.read buf = Some T → SimpleTable.encodable T.
Proof.
  intros (first & rest & inner & Hsplit & Hb & Hcols & Hvalid & Hrows & Har)%read_inv.
  pose proof (split_pieces LF buf) as Hlines. rewrite Hsplit in Hlines.
  apply Forall_cons in Hlines as [Hfirst Hrest].
  repeat split; try done.
  - rewrite Hcols. apply split_not_nil.
  - rewrite Hcols. apply plain_pieces. by eapply bracketed_no_LF.
  - revert Har. rewrite Hrows. generalize (length (SimpleTable.ColumnNames T)).
    intros n. clear Hrows Hsplit.
    induction Hrest as [|l rest Hl _ IH]; [by constructor|].
    cbn [List.filter]. destruct (is_empty l) eqn:E; cbn [negb]; [exact IH|].
    cbn [map]. intros [Hlen Htl]%Forall_cons.
    constructor; [|by apply IH].
    split; [done|]. split; [by apply plain_pieces|].
    intros Hs. pose proof (join_split SimpleTable.COL_SEP l) as Hj.
    rewrite Hs in Hj. simpl in Hj. by subst l.
Qed.

Lemma header_only_encodable T :
  SimpleTable.encodable T → SimpleTable.encodable (header_only T).
Proof. intros (? & ? & ? & _). by repeat split. Qed.

Lemma create_valid names :
  SimpleTable.valid_names names = true →
  SimpleTable.create names = Some (SimpleTable.mk names []).
Proof. intros H. unfold SimpleTable.create. by rewrite H. Qed.

(** ** The first line of the input file *)

Lemma take_front_app a b :
  StringRef.take_front (Z.of_nat (StringRef.size a)) (a +:+ b) = a.
Proof.
  induction a as [|x a IH].
  - by destruct b.
  - change (String x a +:+ b) with (String x (a +:+ b)).
    change (StringRef.size (String x a)) with (S (StringRef.size a)).
    cbn [StringRef.take_front].
    replace (0 <? Z.of_nat (S (StringRef.size a)))%Z with true
      by (symmetry; apply Z.ltb_lt; lia).
    replace (Z.of_nat (S (StringRef.size a)) - 1)%Z
      with (Z.of_nat (StringRef.size a)) by lia.
    by rewrite IH.
Qed.

(** [substr(1, size() - 2)] takes the brackets off, the subtraction in
    [size_t] included. *)
Lemma strip_brackets inner :
  addressable inner →
  ∀ FirstLine, FirstLine = String "["%char (inner +:+ "]") →
  StringRef.substr FirstLine 1 (StringRef.size_minus FirstLine 2) = inner.
Proof.
  unfold addressable. intros Hsz FirstLine HF.
  unfold StringRef.substr, StringRef.size_minus.
  assert (StringRef.size FirstLine = StringRef.size inner + 2) as ->.
  { rewrite HF. change (StringRef.size (String "[" (inner +:+ "]")))
      with (S (StringRef.size (inner +:+ "]"))).
    rewrite size_app. unfold StringRef.size. simpl. lia. }
  replace (Nat.min 1 (StringRef.size inner + 2)) with 1 by lia.
  replace (Z.of_nat (StringRef.size inner + 2) - 2)%Z
    with (Z.of_nat (StringRef.size inner)) by lia.
  rewrite Z.mod_small by lia.
  rewrite HF. cbn [StringRef.drop_front]. apply take_front_app.
Qed.

(** The wrap-around at work: on a line of one character, [size() - 2] is
    the largest [size_t]. *)
Example size_minus_wraps : StringRef.size_minus "[" 2 = (2 ^ 64 - 1)%Z.
Proof. reflexivity. Qed.

(** ** The loops of [filterTable] *)

Lemma deref_text LI :
  text (line_iterator.deref LI) = List.hd EmptyString (map text LI).
Proof. by destruct LI. Qed.

(** The loop of lines 78-79 stops on the first line that is the header. *)
Lemma skip_to_section_finds LI before after :
  map text LI = before ++ SECTION :: after →
  SECTION ∉ before →
  ∃ L LI', skip_to_section LI = Normal (L :: LI') ∧ map text LI' = after.
Proof.
  revert LI. induction before as [|b before IH]; intros LI Hmap Hnot.
  - destruct LI as [|L LI]; [done|]. injection Hmap as HL Hrest.
    exists L, LI. cbn [skip_to_section]. unfold StringRef.equals.
    by rewrite HL, String.eqb_refl.
  - destruct LI as [|L LI]; [done|]. injection Hmap as HL Hrest.
    apply not_elem_of_cons in Hnot as [Hb Hnot].
    cbn [skip_to_section]. unfold StringRef.equals.
    destruct (String.eqb (text L) SECTION) eqn:E.
    + apply String.eqb_eq in E. congruence.
    + by apply IH.
Qed.

Lemma requirements_loop_exits fuel buf LI :
  recognized (text (line_iterator.deref LI)) = false →
  requirements_loop (S fuel) buf LI = Normal ().
Proof. intros H. cbn [requirements_loop]. by rewrite H. Qed.

(** The loop has no exit once it is entered on a line that the body can
    read: the fuel runs out, however much there is. *)
Lemma requirements_loop_stuck buf LI :
  recognized (text (line_iterator.deref LI)) = true →
  (StringRef.equals (text (line_iterator.deref LI)) "aspects" = true →
   is_Some (MemoryBuffer.load_u32 buf
              (payload_data (line_iterator.deref LI) (StringRef.size "aspects|")))) →
  ∀ fuel, requirements_loop fuel buf LI = OutOfFuel.
Proof.
  intros Hrec Hload fuel. induction fuel as [|fuel IH]; [done|].
  cbn [requirements_loop]. rewrite Hrec.
  destruct (StringRef.equals (text (line_iterator.deref LI)) "aspects").
  - destruct Hload as [v ->]; done.
  - by repeat case_match.
Qed.

Section PropertyFile.

Context (F : FileSystem) (PropFile Properties : string).
Hypothesis Hprops : fs.getFileAsStream F PropFile = Some Properties.

Lemma check_property_file_benign fuel :
  benign Properties →
  check_property_file (S fuel) F PropFile = Normal ().
Proof.
  intros Hb. unfold check_property_file. rewrite Hprops.
  destruct Hb as [-> | (before & after & Hlines & Hnot & Hrec)]; [done|].
  destruct (StringRef.find Properties SECTION); [|done].
  destruct (skip_to_section_finds _ _ _ Hlines Hnot) as (L & LI' & -> & Hafter).
  cbn [mbind Outcome_bind line_iterator.advance].
  apply requirements_loop_exits. by rewrite deref_text, Hafter.
Qed.

Lemma check_property_file_stuck L LI :
  is_Some (StringRef.find Properties SECTION) →
  skip_to_section (line_iterator.make Properties) = Normal (L :: LI) →
  (∀ fuel, requirements_loop fuel Properties LI = OutOfFuel) →
  ∀ fuel, check_property_file fuel F PropFile = OutOfFuel.
Proof.
  intros [n Hfind] Hskip Hloop fuel.
  unfold check_property_file. rewrite Hprops, Hfind, Hskip.
  cbn [mbind Outcome_bind line_iterator.advance]. apply Hloop.
Qed.

End PropertyFile.

Lemma check_rows_benign fuel F T rows :
  Forall (fun R => ∃ Properties,
            fs.getFileAsStream F (SimpleTable.getCell T R "Properties")
            = Some Properties ∧ benign Properties) rows →
  check_rows (S fuel) F T rows = Normal ().
Proof.
  induction 1 as [|R rows (Properties & Hfile & Hb) _ IH]; [done|].
  cbn [check_rows].
  by rewrite (check_property_file_benign _ _ _ Hfile _ Hb).
Qed.

(** ** [filterTable] and [main] *)

Lemma write_output_creatable O F T :
  creatable F (OutputFileName O) = true →
  write_output O F T
  = Normal (with_file F (OutputFileName O) (SimpleTable.write T true)).
Proof. intros H. unfold write_output, fs.open_write_close. by rewrite H. Qed.

Lemma write_output_inv O F T F' :
  write_output O F T = Normal F' →
  F' = with_file F (OutputFileName O) (SimpleTable.write T true).
Proof.
  unfold write_output, fs.open_write_close.
  destruct (creatable F (OutputFileName O)); [|done]. by intros [= <-].
Qed.

Lemma with_file_lookup F p text :
  fs.getFileAsStream (with_file F p text) p = Some text.
Proof.
  unfold fs.getFileAsStream, with_file. cbn [nodes]. by rewrite lookup_insert_eq.
Qed.

(** The branch of [filterTable] for a table without a [Properties] column. *)
Lemma filterTable_copies fuel O F T :
  SimpleTable.getColumnId T "Properties" = (-1)%Z →
  creatable F (OutputFileName O) = true →
  filterTable fuel O F T
  = Normal (with_file F (OutputFileName O) (SimpleTable.write T true)).
Proof.
  intros Hcol Hopen. unfold filterTable. rewrite Hcol. cbn [Z.eqb Pos.eqb].
  by apply write_output_creatable.
Qed.

Lemma filterTable_stuck fuel O F T :
  SimpleTable.getColumnId T "Properties" ≠ (-1)%Z →
  check_rows fuel F T (SimpleTable.Rows T) = OutOfFuel →
  filterTable fuel O F T = OutOfFuel.
Proof.
  intros Hcol Hrows. unfold filterTable.
  apply Z.eqb_neq in Hcol. by rewrite Hcol, Hrows.
Qed.

(** A run on an input file that holds the table [T]. *)
Section InputFile.

Context (O : Options) (F : FileSystem) (buf : string) (T : SimpleTable.t).
Hypothesis Hfile : fs.getFileAsStream F (InputFilename O) = Some buf.
Hypothesis Hread : SimpleTable.read buf = Some T.

Lemma first_line_is_header :
  text (line_iterator.deref (line_iterator.make buf)) = SimpleTable.header_line T.
Proof.
  pose proof Hread as (first & rest & inner & Hs & Hb & Hcols & _)%read_inv.
  unfold line_iterator.make. rewrite Hs. cbn [line_iterator.with_offsets].
  rewrite (bracketed_inv _ _ Hb). cbn [List.filter text is_empty negb].
  cbn [line_iterator.deref text].
  unfold SimpleTable.header_line. by rewrite Hcols, join_split.
Qed.

(** The header that [filterTable] parses again from the first line is the
    column list of the table. *)
Lemma reparsed_header :
  addressable buf →
  let FirstLine := text (line_iterator.deref (line_iterator.make buf)) in
  StringRef.split SimpleTable.COL_SEP
    (StringRef.substr FirstLine 1 (StringRef.size_minus FirstLine 2))
  = SimpleTable.ColumnNames T.
Proof.
  intros Haddr. cbn zeta. rewrite first_line_is_header.
  rewrite (strip_brackets
             (join SimpleTable.COL_SEP (SimpleTable.ColumnNames T)));
    [| |done].
  - apply read_encodable in Hread as (Hne & _ & Hplain & _).
    by apply split_join; [|apply plain_no_sep].
  - pose proof Hread as (first & rest & inner & Hs & Hb & Hcols & _)%read_inv.
    pose proof (split_sizes LF buf) as Hsz. rewrite Hs in Hsz.
    apply Forall_cons in Hsz as [Hsz _].
    rewrite (bracketed_inv _ _ Hb) in Hsz.
    change (StringRef.size (String "[" (inner +:+ "]")))
      with (S (StringRef.size (inner +:+ "]"))) in Hsz.
    rewrite size_app in Hsz. rewrite Hcols, join_split.
    unfold addressable in *. lia.
Qed.

(** With a [Properties] column, a run of [filterTable] whose loop over the
    rows comes to an end writes the header of the input table and no row. *)
Lemma filterTable_after_rows fuel :
  addressable buf →
  SimpleTable.getColumnId T "Properties" ≠ (-1)%Z →
  check_rows fuel F T (SimpleTable.Rows T) = Normal () →
  filterTable fuel O F T = write_output O F (header_only T).
Proof.
  intros Haddr Hcol Hrows. unfold filterTable.
  apply Z.eqb_neq in Hcol. rewrite Hcol, Hrows.
  cbn [mbind Outcome_bind]. rewrite Hfile, (reparsed_header Haddr).
  rewrite create_valid; [done|].
  by apply read_encodable in Hread as (_ & ? & _).
Qed.

Lemma main_calls_filterTable fuel :
  is_empty (InputFilename O) = false →
  is_empty (Target O) = false →
  is_empty (DeviceConfigFile O) = false →
  fs.exists_ F (DeviceConfigFile O) = true →
  main fuel O F = filterTable fuel O F T.
Proof.
  intros HI HT HD HDe. unfold main.
  rewrite HI, HT, HD, HDe.
  assert (fs.exists_ F (InputFilename O) = true) as ->.
  { unfold fs.exists_, fs.getFileAsStream in *. apply bool_decide_eq_true.
    destruct (nodes F !! InputFilename O); [by eexists|done]. }
  cbn [negb]. unfold read_table. rewrite Hfile. cbn [mbind option_bind].
  rewrite Hread. unfold fs.getFileOrSTDIN. rewrite Hfile.
  by destruct (String.eqb _ _).
Qed.

(** Outside the defect of the loop over the entries: when every
    [Properties] cell names a readable file that is benign, [filterTable]
    returns and has written the column header of the input table and no row,
    whatever else the property files hold. *)
Lemma properties_table_is_emptied fuel :
  addressable buf →
  SimpleTable.getColumnId T "Properties" ≠ (-1)%Z →
  Forall (fun R => ∃ Properties,
            fs.getFileAsStream F (SimpleTable.getCell T R "Properties")
            = Some Properties ∧ benign Properties) (SimpleTable.Rows T) →
  creatable F (OutputFileName O) = true →
  filterTable (S fuel) O F T
  = Normal (with_file F (OutputFileName O)
              (SimpleTable.write (header_only T) true))
  ∧ SimpleTable.write (header_only T) true = SimpleTable.header_line T +:+ nl
  ∧ SimpleTable.read (SimpleTable.write (header_only T) true)
    = Some (header_only T).
Proof.
  intros Haddr Hcol Hrows Hopen. split; [|split].
  - rewrite filterTable_after_rows by (done || by apply check_rows_benign).
    by apply write_output_creatable.
  - unfold SimpleTable.write, header_only.
    cbn [SimpleTable.Rows SimpleTable.row_lines]. apply append_empty.
  - apply read_write, header_only_encodable. by eapply read_encodable.
Qed.

End InputFile.

(** What a run of [main] that returns went through. *)
Lemma main_inv fuel O F F' :
  main fuel O F = Normal F' →
  ∃ buf T,
    fs.getFileAsStream F (InputFilename O) = Some buf
    ∧ SimpleTable.read buf = Some T
    ∧ filterTable fuel O F T = Normal F'.
Proof.
  unfold main, error.
  repeat (case_match; [done|]).
  destruct (fs.getFileOrSTDIN F (InputFilename O)); [|done].
  unfold read_table.
  destruct (fs.getFileAsStream F (InputFilename O)) as [buf|] eqn:Hfile; [|done].
  cbn [mbind option_bind].
  destruct (SimpleTable.read buf) as [T|] eqn:Hread; [|done].
  intros Hrun. by exists buf, T.
Qed.

(** [main] only looks at whether a target was given, not at its value. *)
Lemma main_ignores_target fuel O F target :
  is_empty (Target O) = false →
  is_empty target = false →
  main fuel (mkOptions (InputFilename O) (Output O) target (DeviceConfigFile O)) F
  = main fuel O F.
Proof. intros H1 H2. unfold main. cbn. by rewrite H1, H2. Qed.

(** ** The default output path *)

Lemma last_app_not_nil (l1 l2 : list string) d :
  l2 ≠ [] → List.last (l1 ++ l2) d = List.last l2 d.
Proof.
  intros Hne. induction l1 as [|x l1 IH]; [done|].
  simpl. rewrite IH. destruct (l1 ++ l2) eqn:E; [|done].
  by apply app_eq_nil in E as [_ ->].
Qed.

Lemma filename_plain name :
  has_char path.SEP name = false → path.filename name = name.
Proof. intros H. unfold path.filename. by rewrite split_plain. Qed.

Lemma filename_in_directory dir name :
  has_char path.SEP name = false →
  path.filename (dir +:+ String path.SEP name) = name.
Proof.
  intros H. unfold path.filename.
  rewrite split_app_general, last_app_not_nil by apply split_not_nil.
  by rewrite split_plain.
Qed.

Lemma take_drop n s :
  StringRef.take_front (Z.of_nat n) s +:+ StringRef.drop_front n s = s.
Proof.
  revert n. induction s as [|a s IH]; intros [|n]; try done.
  cbn [StringRef.take_front StringRef.drop_front].
  replace (0 <? Z.of_nat (S n))%Z with true by (symmetry; apply Z.ltb_lt; lia).
  replace (Z.of_nat (S n) - 1)%Z with (Z.of_nat n) by lia.
  exact (f_equal (String a) (IH n)).
Qed.

Lemma drop_front_clamped n s :
  StringRef.drop_front (Nat.min n (StringRef.size s)) s = StringRef.drop_front n s.
Proof.
  revert n. induction s as [|a s IH]; intros [|n]; try done.
  change (Nat.min (S n) (StringRef.size (String a s)))
    with (S (Nat.min n (StringRef.size s))).
  cbn [StringRef.drop_front]. apply IH.
Qed.

(** The stem and the extension are the two halves of the file name. *)
Lemma stem_extension p : path.stem p +:+ path.extension p = path.filename p.
Proof.
  unfold path.stem, path.extension.
  destruct (path.find_last_of "." (path.filename p)) as [pos|];
    [|apply append_empty].
  destruct (path.dots (path.filename p)); [apply append_empty|].
  unfold StringRef.substr, StringRef.substr_from.
  rewrite !drop_front_clamped. cbn [StringRef.drop_front]. apply take_drop.
Qed.

Lemma stem_of_filename p q :
  path.filename p = path.filename q →
  path.stem p = path.stem q ∧ path.extension p = path.extension q.
Proof. unfold path.stem, path.extension. by intros ->. Qed.

(** ** The sample runs *)

Lemma sample_reaches_filterTable fuel props :
  main fuel Sample.options (Sample.files Sample.manifest props)
  = filterTable fuel Sample.options (Sample.files Sample.manifest props)
      Sample.manifest_table.
Proof. by apply main_calls_filterTable with (buf := Sample.manifest). Qed.

(** A sample run whose property file sends the loop over the entries onto a
    line with a recognized key never returns. *)
Lemma sample_run_stuck props L LI :
  is_Some (StringRef.find props SECTION) →
  skip_to_section (line_iterator.make props) = Normal (L :: LI) →
  recognized (text (line_iterator.deref LI)) = true →
  (StringRef.equals (text (line_iterator.deref LI)) "aspects" = true →
   is_Some (MemoryBuffer.load_u32 props
              (payload_data (line_iterator.deref LI) (StringRef.size "aspects|")))) →
  ∀ fuel,
    main fuel Sample.options (Sample.files Sample.manifest props) = OutOfFuel.
Proof.
  intros Hfind Hskip Hrec Hload fuel.
  rewrite sample_reaches_filterTable.
  apply filterTable_stuck; [done|].
  cbn [check_rows SimpleTable.Rows Sample.manifest_table].
  rewrite (check_property_file_stuck
             (Sample.files Sample.manifest props) "a.prop" props eq_refl L LI);
    try done.
  by apply requirements_loop_stuck.
Qed.

(** A sample run on a benign property file writes the header and no row. *)
Lemma sample_run_returns props :
  benign props →
  ∀ fuel,
    main (S fuel) Sample.options (Sample.files Sample.manifest props)
    = Normal (with_file (Sample.files Sample.manifest props)
                "t_filtered.table" ("[Code|Properties]" +:+ nl)).
Proof.
  intros Hb fuel. rewrite sample_reaches_filterTable.
  rewrite (filterTable_after_rows _ _ Sample.manifest); try done.
  cbn [check_rows SimpleTable.Rows Sample.manifest_table].
  by rewrite (check_property_file_benign _ _ props).
Qed.

(** The header is a line of the file, and nothing follows it. *)
Ltac header_then lines_after :=
  right; exists [], lines_after;
  split; [reflexivity|]; split; [apply not_elem_of_nil|reflexivity].

(** The run is caught in the loop on the first line of [LI]. *)
Ltac caught_on L LI :=
  eapply (sample_run_stuck _ L LI);
  [by eexists|reflexivity|reflexivity|
   first [by intros [=] | intros _; by eexists]].

Example properties_table_is_emptied_sample :
  filterTable 1 Sample.options (Sample.files Sample.manifest Sample.no_entries)
    Sample.manifest_table
  = Normal (with_file (Sample.files Sample.manifest Sample.no_entries)
              "t_filtered.table" ("[Code|Properties]" +:+ nl)).
Proof.
  apply (properties_table_is_emptied Sample.options
           (Sample.files Sample.manifest Sample.no_entries)
           Sample.manifest Sample.manifest_table); try done.
  constructor; [|constructor].
  exists Sample.no_entries. split; [reflexivity|header_then (@nil string)].
Qed.

(** ** The claims *)

(** C1, the code on a row all of whose declared clauses are supported: the
    property file of the only row has a device requirements section that
    declares nothing, so nothing it declares is unsupported; the run returns
    and the table it writes has the header of the input and not the row.
    When the section declares the aspect 3, which the device configuration
    file lists, the run does not return and writes no table. *)
Theorem row_with_nothing_unsupported_is_dropped :
  SimpleTable.read Sample.manifest = Some Sample.manifest_table
  ∧ lines Sample.no_entries = [SECTION]
  ∧ (∀ fuel,
       main (S fuel) Sample.options (Sample.files Sample.manifest Sample.no_entries)
       = Normal (with_file (Sample.files Sample.manifest Sample.no_entries)
                   "t_filtered.table" ("[Code|Properties]" +:+ nl)))
  ∧ SimpleTable.read ("[Code|Properties]" +:+ nl)
    = Some (SimpleTable.mk ["Code"; "Properties"] [])
  ∧ lines Sample.aspects_entry = [SECTION; "aspects|" +:+ Sample.aspect3]
  ∧ (∀ fuel,
       main fuel Sample.options
         (Sample.files Sample.manifest Sample.aspects_entry) = OutOfFuel).
Proof.
  split; [done|]. split; [done|]. split; [|split; [done|split; [done|]]].
  - apply sample_run_returns. header_then (@nil string).
  - caught_on (mkLine 0 SECTION) [mkLine 27 ("aspects|" +:+ Sample.aspect3)].
Qed.

(** C2, the code on a row whose property file has no device requirements
    section: the run returns, and the table it writes has the header of the
    input and not the row. *)
Theorem row_without_section_is_dropped :
  SimpleTable.read Sample.manifest = Some Sample.manifest_table
  ∧ StringRef.find Sample.other_section SECTION = None
  ∧ (∀ fuel,
       main (S fuel) Sample.options
         (Sample.files Sample.manifest Sample.other_section)
       = Normal (with_file (Sample.files Sample.manifest Sample.other_section)
                   "t_filtered.table" ("[Code|Properties]" +:+ nl)))
  ∧ SimpleTable.read ("[Code|Properties]" +:+ nl)
    = Some (SimpleTable.mk ["Code"; "Properties"] []).
Proof.
  split; [done|]. split; [done|]. split; [|done].
  apply sample_run_returns. by left.
Qed.

(** C3: a table without a [Properties] column is written to the output as it
    is; [filterTable] returns, the file at the output path then holds the
    encoding of the input table, and reading that file gives the input table,
    with its columns and rows in their order. *)
Theorem table_without_properties_is_copied fuel O F buf T :
  SimpleTable.read buf = Some T →
  SimpleTable.getColumnId T "Properties" = (-1)%Z →
  creatable F (OutputFileName O) = true →
  ∃ F',
    filterTable fuel O F T = Normal F'
    ∧ F' = with_file F (OutputFileName O) (SimpleTable.write T true)
    ∧ fs.getFileAsStream F' (OutputFileName O)
      = Some (SimpleTable.write T true)
    ∧ (fs.getFileAsStream F' (OutputFileName O) ≫= SimpleTable.read) = Some T.
Proof.
  intros Hread Hcol Hopen.
  exists (with_file F (OutputFileName O) (SimpleTable.write T true)).
  split; [by apply filterTable_copies|]. split; [done|].
  rewrite with_file_lookup. split; [done|].
  cbn [mbind option_bind]. apply read_write. by eapply read_encodable.
Qed.

Lemma table_without_properties_is_copied_witness :
  SimpleTable.read Sample.host_manifest = Some Sample.host_table
  ∧ SimpleTable.getColumnId Sample.host_table "Properties" = (-1)%Z
  ∧ creatable (Sample.files Sample.host_manifest "") "t_filtered.table" = true
  ∧ ∃ F',
      filterTable 0 Sample.options (Sample.files Sample.host_manifest "")
        Sample.host_table = Normal F'
      ∧ F' = with_file (Sample.files Sample.host_manifest "")
               "t_filtered.table" Sample.host_manifest
      ∧ fs.getFileAsStream F' "t_filtered.table" = Some Sample.host_manifest
      ∧ (fs.getFileAsStream F' "t_filtered.table" ≫= SimpleTable.read)
        = Some Sample.host_table.
Proof.
  split; [reflexivity|]. split; [reflexivity|]. split; [reflexivity|].
  apply (table_without_properties_is_copied 0 Sample.options
           (Sample.files Sample.host_manifest "")
           Sample.host_manifest Sample.host_table); reflexivity.
Defined.

(** C4: after a run of [main] that returns, the output file holds a table
    whose column list is the column list of the input table, the same names
    in the same order. *)
Theorem output_columns_are_input_columns fuel O F buf F' :
  fs.getFileAsStream F (InputFilename O) = Some buf →
  addressable buf →
  main fuel O F = Normal F' →
  ∃ T T' text,
    SimpleTable.read buf = Some T
    ∧ fs.getFileAsStream F' (OutputFileName O) = Some text
    ∧ SimpleTable.read text = Some T'
    ∧ SimpleTable.ColumnNames T' = SimpleTable.ColumnNames T.
Proof.
  intros Hfile Haddr (buf' & T & Hfile' & Hread & Hrun)%main_inv.
  rewrite Hfile in Hfile'. injection Hfile' as <-.
  pose proof (read_encodable _ _ Hread) as Henc.
  destruct (decide (SimpleTable.getColumnId T "Properties" = (-1)%Z)) as [Hcol|Hcol].
  - exists T, T, (SimpleTable.write T true).
    unfold filterTable in Hrun. rewrite Hcol in Hrun. cbn [Z.eqb Pos.eqb] in Hrun.
    apply write_output_inv in Hrun as ->.
    repeat split; [done|apply with_file_lookup|by apply read_write].
  - exists T, (header_only T), (SimpleTable.write (header_only T) true).
    destruct (check_rows fuel F T (SimpleTable.Rows T)) as [[]| | |] eqn:Hrows;
      try (unfold filterTable in Hrun; apply Z.eqb_neq in Hcol;
           by rewrite Hcol, Hrows in Hrun).
    rewrite (filterTable_after_rows O F buf T) in Hrun by done.
    apply write_output_inv in Hrun as ->.
    repeat split; [done|apply with_file_lookup|].
    apply read_write. by apply header_only_encodable.
Qed.

Lemma output_columns_are_input_columns_witness :
  let F := Sample.files Sample.manifest Sample.other_section in
  let F' := with_file F "t_filtered.table" ("[Code|Properties]" +:+ nl) in
  fs.getFileAsStream F "t.table" = Some Sample.manifest
  ∧ addressable Sample.manifest
  ∧ main 1 Sample.options F = Normal F'
  ∧ ∃ T T' text,
      SimpleTable.read Sample.manifest = Some T
      ∧ fs.getFileAsStream F' "t_filtered.table" = Some text
      ∧ SimpleTable.read text = Some T'
      ∧ SimpleTable.ColumnNames T' = SimpleTable.ColumnNames T.
Proof.
  split; [reflexivity|]. split; [reflexivity|]. split; [vm_compute; reflexivity|].
  apply (output_columns_are_input_columns 1 Sample.options
           (Sample.files Sample.manifest Sample.other_section) Sample.manifest
           (with_file (Sample.files Sample.manifest Sample.other_section)
              "t_filtered.table" ("[Code|Properties]" +:+ nl)));
    [reflexivity|reflexivity|vm_compute; reflexivity].
Defined.

(** C5, the code on a target that the device capability description does not
    mention: the run returns (exit code 0) and has created the output
    file. *)
Theorem unknown_target_is_accepted :
  let O := mkOptions "t.table" "" "no_such_target" "devices.cfg" in
  let F := Sample.files Sample.host_manifest "" in
  fs.getFileAsStream F "devices.cfg" = Some Sample.devices
  ∧ StringRef.find Sample.devices "no_such_target" = None
  ∧ nodes F !! "t_filtered.table" = None
  ∧ ∀ fuel,
      main fuel O F = Normal (with_file F "t_filtered.table" Sample.host_manifest)
      ∧ exit_code (main fuel O F) = Some 0%Z.
Proof.
  cbn zeta. split; [done|]. split; [done|]. split; [done|]. intros fuel.
  assert (main fuel (mkOptions "t.table" "" "no_such_target" "devices.cfg")
            (Sample.files Sample.host_manifest "")
          = Normal (with_file (Sample.files Sample.host_manifest "")
                      "t_filtered.table" Sample.host_manifest)) as ->; [|done].
  rewrite (main_calls_filterTable _ _ Sample.host_manifest Sample.host_table)
    by done.
  by rewrite filterTable_copies.
Qed.

(** C6, the code on an [aspects] entry.  On a line that is the key alone the
    payload is empty, and the integer is read from the four bytes that follow
    the line: the line break and the start of the next line.  No decode error
    is reported, neither there nor for a payload of three bytes: both runs
    never return.  When the line is the last thing in the file, the read
    leaves the buffer. *)
Theorem aspects_read_is_unchecked :
  let L := mkLine 27 "aspects" in
  skip_to_section (line_iterator.make Sample.bare_aspects)
  = Normal [mkLine 0 SECTION; L; mkLine 35 "[SYCL/kernel names]"]
  ∧ StringRef.substr_from (text L) (StringRef.size "aspects|") = ""
  ∧ payload_data L (StringRef.size "aspects|") = data L + StringRef.size (text L)
  ∧ StringRef.substr Sample.bare_aspects (data L + StringRef.size (text L)) 4
    = nl +:+ "[SY"
  ∧ MemoryBuffer.load_u32 Sample.bare_aspects
      (payload_data L (StringRef.size "aspects|")) = Some 1498635018%Z
  ∧ (∀ fuel,
       main fuel Sample.options (Sample.files Sample.manifest Sample.bare_aspects)
       = OutOfFuel)
  ∧ (∀ fuel,
       main fuel Sample.options (Sample.files Sample.manifest Sample.short_payload)
       = OutOfFuel)
  ∧ (∀ fuel,
       main (S fuel) Sample.options
         (Sample.files Sample.manifest Sample.bare_aspects_at_end)
       = Undefined).
Proof.
  cbn zeta. repeat split; try done.
  - caught_on (mkLine 0 SECTION)
      [mkLine 27 "aspects"; mkLine 35 "[SYCL/kernel names]"].
  - caught_on (mkLine 0 SECTION) [mkLine 27 "aspects|abc"].
Qed.

(** C7, a table that meets the invariants of the data model and does not
    survive the round trip: a cell holds the column separator, so the line
    written for its row is read back as three cells, a format error. *)
Lemma separator_in_cell_breaks_roundtrip :
  let T := SimpleTable.mk ["Code"; "Properties"] [["a|b.bc"; "a.prop"]] in
  SimpleTable.well_formed T
  ∧ SimpleTable.write T true
    = "[Code|Properties]" +:+ nl +:+ "a|b.bc|a.prop" +:+ nl
  ∧ SimpleTable.read (SimpleTable.write T true) = None
  ∧ SimpleTable.read (SimpleTable.write T true) ≠ Some T.
Proof.
  cbn zeta. split; [|by repeat split].
  split; [reflexivity|by repeat constructor].
Qed.

(** The other ways out of what the format can carry: a line break in a cell
    makes two rows, a row that is one empty cell is written as a blank line
    and lost, and a table without columns is written with the header [[]],
    which is read as one empty column name. *)
Example unencodable_tables :
  SimpleTable.read (SimpleTable.write (SimpleTable.mk ["Code"] [["a" +:+ nl +:+ "b"]]) true)
  = Some (SimpleTable.mk ["Code"] [["a"]; ["b"]])
  ∧ SimpleTable.read (SimpleTable.write (SimpleTable.mk ["Code"] [[""]]) true)
    = Some (SimpleTable.mk ["Code"] [])
  ∧ SimpleTable.read (SimpleTable.write (SimpleTable.mk [] []) true) = None.
Proof. by repeat split. Qed.

(** C7, as the format allows it: for every table with at least one column,
    whose column names are unique and non-empty, whose names and cells hold
    neither the column separator nor a line break, whose rows have one cell
    per column, and none of whose rows is a single empty cell, reading what
    [write] emits with the header gives the table back. *)
Theorem table_roundtrip T :
  SimpleTable.encodable T →
  SimpleTable.read (SimpleTable.write T true) = Some T.
Proof. apply read_write. Qed.

Lemma table_roundtrip_witness :
  SimpleTable.encodable Sample.manifest_table
  ∧ SimpleTable.read (SimpleTable.write Sample.manifest_table true)
    = Some Sample.manifest_table.
Proof.
  assert (SimpleTable.encodable Sample.manifest_table) as H.
  { split; [discriminate|]. split; [reflexivity|]. split; [reflexivity|].
    repeat constructor. discriminate. }
  split; [exact H|]. exact (table_roundtrip Sample.manifest_table H).
Defined.

(** C8, the code on a property file whose device requirements section has an
    [aspects] entry: whatever the fuel, the run is still inside the loop over
    the entries; it neither returns nor exits. *)
Theorem aspects_entry_never_returns :
  ∀ fuel,
    main fuel Sample.options (Sample.files Sample.manifest Sample.aspects_entry)
    = OutOfFuel.
Proof.
  caught_on (mkLine 0 SECTION) [mkLine 27 ("aspects|" +:+ Sample.aspect3)].
Qed.

(** C9, an input path with a directory part: the default output path is the
    suffixed file name alone, not the input path with its stem suffixed. *)
Lemma default_output_loses_directory :
  let O := mkOptions "build/t.table" "" "intel_gpu_pvc" "devices.cfg" in
  OutputFileName O = "t_filtered.table"
  ∧ suffixed_input_path (InputFilename O) = "build/t_filtered.table"
  ∧ OutputFileName O ≠ suffixed_input_path (InputFilename O).
Proof. by cbn zeta. Qed.

Lemma size_take_front n s :
  StringRef.size (StringRef.take_front (Z.of_nat n) s)
  = Nat.min n (StringRef.size s).
Proof.
  revert n. induction s as [|a s IH]; intros [|n]; try done.
  cbn [StringRef.take_front].
  replace (0 <? Z.of_nat (S n))%Z with true by (symmetry; apply Z.ltb_lt; lia).
  replace (Z.of_nat (S n) - 1)%Z with (Z.of_nat n) by lia.
  change (S (StringRef.size (StringRef.take_front (Z.of_nat n) s))
          = S (Nat.min n (StringRef.size s))).
  by rewrite IH.
Qed.

(** The directory part of a path with a separator is not empty. *)
Lemma directory_part_size dir name :
  has_char path.SEP name = false →
  StringRef.size (path.directory_part (dir +:+ String path.SEP name))
  = StringRef.size dir + 1.
Proof.
  intros Hname. unfold path.directory_part.
  rewrite filename_in_directory by done.
  rewrite size_take_front, size_app.
  change (StringRef.size (String path.SEP name)) with (S (StringRef.size name)).
  lia.
Qed.

(** C9, as the code has it: without [-o], the output path is the file name of
    the input path, the directory part left out, with [_filtered] between its
    stem and its extension; the stem and the extension make up the file name.
    The output path is the input path with its stem suffixed exactly when the
    input path has no directory part. *)
Theorem default_output_is_suffixed_file_name O dir name :
  is_empty (Output O) = true →
  has_char path.SEP name = false →
  InputFilename O = dir +:+ String path.SEP name ∨ InputFilename O = name →
  OutputFileName O = path.stem name +:+ "_filtered" +:+ path.extension name
  ∧ path.stem name +:+ path.extension name = name
  ∧ (OutputFileName O = suffixed_input_path (InputFilename O)
     ↔ InputFilename O = name).
Proof.
  intros Hout Hname Hin.
  assert (path.filename (InputFilename O) = path.filename name) as Hf.
  { rewrite (filename_plain name) by done.
    destruct Hin as [-> | ->];
      [by apply filename_in_directory|by apply filename_plain]. }
  destruct (stem_of_filename _ _ Hf) as [Hstem Hext].
  assert (OutputFileName O
          = path.stem name +:+ "_filtered" +:+ path.extension name) as Hdefault.
  { unfold OutputFileName. by rewrite Hout, Hstem, Hext. }
  split; [done|]. split.
  { by rewrite stem_extension, filename_plain. }
  split.
  - intros Heq. destruct Hin as [Hdir|?]; [|done].
    apply (f_equal StringRef.size) in Heq.
    unfold suffixed_input_path in Heq.
    rewrite Hdefault, Hstem, Hext, (size_app (path.directory_part _)) in Heq.
    rewrite Hdir, directory_part_size in Heq by done. lia.
  - intros Heq. rewrite Hdefault. unfold suffixed_input_path, path.directory_part.
    rewrite Heq, filename_plain by done. rewrite Nat.sub_diag.
    by destruct name.
Qed.

Lemma default_output_is_suffixed_file_name_witness :
  let O := mkOptions "t.table" "" "intel_gpu_pvc" "devices.cfg" in
  let O' := mkOptions "build/t.table" "" "intel_gpu_pvc" "devices.cfg" in
  is_empty (Output O) = true
  ∧ has_char path.SEP "t.table" = false
  ∧ InputFilename O = "t.table"
  ∧ InputFilename O' = "build" +:+ String path.SEP "t.table"
  ∧ (OutputFileName O = "t_filtered.table"
     ∧ path.stem "t.table" +:+ path.extension "t.table" = "t.table"
     ∧ (OutputFileName O = suffixed_input_path (InputFilename O)
        ↔ InputFilename O = "t.table"))
  ∧ (OutputFileName O' = "t_filtered.table"
     ∧ path.stem "t.table" +:+ path.extension "t.table" = "t.table"
     ∧ (OutputFileName O' = suffixed_input_path (InputFilename O')
        ↔ InputFilename O' = "t.table")).
Proof.
  cbn zeta. do 4 (split; [reflexivity|]). split.
  - apply (default_output_is_suffixed_file_name
             (mkOptions "t.table" "" "intel_gpu_pvc" "devices.cfg")
             "" "t.table");
      [reflexivity|reflexivity|right; reflexivity].
  - apply (default_output_is_suffixed_file_name
             (mkOptions "build/t.table" "" "intel_gpu_pvc" "devices.cfg")
             "build" "t.table");
      [reflexivity|reflexivity|left; reflexivity].
Defined.

(** C10, the code on a table with a [Properties] column whose only cell names
    a readable file: the line after the section header of that file is the
    key [aspects] alone.  Every turn of the loop over the entries reads
    [Array[0]] from the four bytes after the line, which lie in the buffer,
    and prints it, so the loop is not one that may be taken to end; no run of
    [main] returns, and no table is written. *)
Theorem bare_aspects_entry_writes_nothing :
  let F := Sample.files Sample.manifest Sample.bare_aspects in
  SimpleTable.read Sample.manifest = Some Sample.manifest_table
  ∧ SimpleTable.getColumnId Sample.manifest_table "Properties" = 1%Z
  ∧ Forall (fun R => is_Some (fs.getFileAsStream F
                                (SimpleTable.getCell Sample.manifest_table R
                                   "Properties")))
      (SimpleTable.Rows Sample.manifest_table)
  ∧ lines Sample.bare_aspects = [SECTION; "aspects"; "[SYCL/kernel names]"]
  ∧ is_Some (MemoryBuffer.load_u32 Sample.bare_aspects
               (payload_data (mkLine 27 "aspects") (StringRef.size "aspects|")))
  ∧ ∀ fuel, main fuel Sample.options F = OutOfFuel.
Proof.
  cbn zeta. split; [done|]. split; [done|]. split.
  { repeat constructor. by eexists. }
  split; [done|]. split; [by eexists|].
  caught_on (mkLine 0 SECTION)
    [mkLine 27 "aspects"; mkLine 35 "[SYCL/kernel names]"].
Qed.

(** * Further properties of the tool *)

(** ** The loop over the entries *)

Lemma requirements_loop_settled buf LI :
  settled (fun fuel => requirements_loop fuel buf LI).
Proof.
  unfold settled.
  destruct (recognized (text (line_iterator.deref LI))) eqn:Hrec.
  - destruct (StringRef.equals (text (line_iterator.deref LI)) "aspects") eqn:Ha.
    + destruct (MemoryBuffer.load_u32 buf
                  (payload_data (line_iterator.deref LI) (StringRef.size "aspects|")))
        as [v|] eqn:Hload.
      * left. apply requirements_loop_stuck; [done|]. intros _. by eexists.
      * right. cbn [requirements_loop]. rewrite Hrec, Ha, Hload.
        repeat split; try done. by right.
    + left. apply requirements_loop_stuck; [done|]. by rewrite Ha.
  - right. cbn [requirements_loop]. rewrite Hrec. repeat split; try done. by right.
Qed.

(** ** Computations that take fuel *)

Lemma settled_const {A} (r : Outcome A) :
  r ≠ OutOfFuel → settled (fun _ => r).
Proof. intros H. right. repeat split; try done. by left. Qed.

Lemma settled_bind {A B} (g : nat → Outcome A) (h : A → nat → Outcome B) :
  settled g → (∀ a, settled (h a)) →
  settled (fun n => a ← g n; h a n).
Proof.
  intros [Hg | (Hg1 & HgS & Hg0)] Hh.
  - left. intros n. by rewrite Hg.
  - destruct (g 1) as [a| d | |] eqn:E; [| | |done].
    + destruct (Hh a) as [Hha | (Hh1 & HhS & Hh0)].
      * left. intros [|n].
        -- destruct Hg0 as [-> | ->]; [cbn; apply Hha|done].
        -- rewrite HgS. cbn. apply Hha.
      * right. cbn beta. rewrite E. cbn [mbind Outcome_bind].
        split; [done|]. split.
        -- intros n. rewrite HgS. cbn. apply HhS.
        -- destruct Hg0 as [-> | ->]; [|by right]. cbn. exact Hh0.
    + right. cbn beta. rewrite E. cbn [mbind Outcome_bind].
      split; [done|]. split.
      * intros n. by rewrite HgS.
      * destruct Hg0 as [-> | ->]; [by left|by right].
    + right. cbn beta. rewrite E. cbn [mbind Outcome_bind].
      split; [done|]. split.
      * intros n. by rewrite HgS.
      * destruct Hg0 as [-> | ->]; [by left|by right].
Qed.

Lemma skip_to_section_ends LI : skip_to_section LI ≠ OutOfFuel.
Proof.
  induction LI as [|L LI IH]; simpl; [done|].
  by destruct (StringRef.equals (text L) SECTION).
Qed.

Lemma check_property_file_settled F PropFile :
  settled (fun fuel => check_property_file fuel F PropFile).
Proof.
  unfold check_property_file.
  destruct (fs.getFileAsStream F PropFile) as [Properties|];
    [|by apply settled_const].
  destruct (StringRef.find Properties SECTION); [|by apply settled_const].
  apply (settled_bind (fun _ => skip_to_section (line_iterator.make Properties))).
  - apply settled_const, skip_to_section_ends.
  - intros LI. destruct (line_iterator.advance LI) as [LI'|];
      [apply requirements_loop_settled|by apply settled_const].
Qed.

Lemma check_rows_settled F T rows :
  settled (fun fuel => check_rows fuel F T rows).
Proof.
  induction rows as [|R rows IH];
    [by apply (settled_const (Normal ()))|].
  cbn [check_rows].
  apply (settled_bind
           (fun fuel => check_property_file fuel F
                          (SimpleTable.getCell T R "Properties"))
           (fun _ fuel => check_rows fuel F T rows));
    [apply check_property_file_settled|done].
Qed.

Lemma write_output_ends O F T : write_output O F T ≠ OutOfFuel.
Proof. unfold write_output. by case_match. Qed.

Lemma filterTable_settled O F T :
  settled (fun fuel => filterTable fuel O F T).
Proof.
  unfold filterTable.
  destruct (SimpleTable.getColumnId T "Properties" =? -1)%Z;
    [apply settled_const, write_output_ends|].
  apply (settled_bind (fun fuel => check_rows fuel F T (SimpleTable.Rows T))
           (fun _ _ => _)); [apply check_rows_settled|].
  intros _. apply settled_const.
  destruct (fs.getFileAsStream F (InputFilename O)); [|done].
  destruct (SimpleTable.create _); [apply write_output_ends|done].
Qed.

Lemma main_settled O F : settled (fun fuel => main fuel O F).
Proof.
  unfold main.
  repeat (case_match; [by apply settled_const|]).
  repeat (case_match; [|by apply settled_const]).
  apply filterTable_settled.
Qed.

(** X1: a run of the tool comes to its end without a second evaluation of
    the condition of the loop over the entries, or it never comes to an end:
    either no amount of fuel is enough, or one unit gives the outcome that
    every larger amount gives. *)
Theorem main_ends_at_once_or_never O F :
  (∀ fuel, main fuel O F = OutOfFuel)
  ∨ (main 1 O F ≠ OutOfFuel ∧ ∀ fuel, main (S fuel) O F = main 1 O F).
Proof.
  destruct (main_settled O F) as [H | (H1 & HS & _)]; [by left|by right].
Qed.

(** ** What a run that returns has done *)

(** What [filterTable] has written when it returns. *)
Lemma filterTable_inv fuel O F buf T F' :
  fs.getFileAsStream F (InputFilename O) = Some buf →
  SimpleTable.read buf = Some T →
  addressable buf →
  filterTable fuel O F T = Normal F' →
  (SimpleTable.getColumnId T "Properties" = (-1)%Z
   ∧ F' = with_file F (OutputFileName O) (SimpleTable.write T true))
  ∨ (SimpleTable.getColumnId T "Properties" ≠ (-1)%Z
     ∧ check_rows fuel F T (SimpleTable.Rows T) = Normal ()
     ∧ F' = with_file F (OutputFileName O) (SimpleTable.header_line T +:+ nl)).
Proof.
  intros Hfile Hread Haddr Hrun.
  destruct (decide (SimpleTable.getColumnId T "Properties" = (-1)%Z)) as [Hcol|Hcol].
  - left. split; [done|].
    unfold filterTable in Hrun. rewrite Hcol in Hrun. cbn [Z.eqb Pos.eqb] in Hrun.
    by apply write_output_inv.
  - right. split; [done|].
    destruct (check_rows fuel F T (SimpleTable.Rows T)) as [[]| | |] eqn:Hrows;
      try (unfold filterTable in Hrun; apply Z.eqb_neq in Hcol;
           by rewrite Hcol, Hrows in Hrun).
    split; [done|].
    rewrite (filterTable_after_rows O F buf T) in Hrun by done.
    apply write_output_inv in Hrun as ->. f_equal.
    unfold SimpleTable.write, header_only.
    cbn [SimpleTable.Rows SimpleTable.row_lines]. apply append_empty.
Qed.

(** X4: a run of [main] that returns has written the whole input table, when
    the table has no [Properties] column, or the header line alone, when it
    has one; it never writes some of the rows and leaves out the others. *)
Theorem main_writes_all_rows_or_none fuel O F buf F' :
  fs.getFileAsStream F (InputFilename O) = Some buf →
  addressable buf →
  main fuel O F = Normal F' →
  ∃ T,
    SimpleTable.read buf = Some T
    ∧ ((SimpleTable.getColumnId T "Properties" = (-1)%Z
        ∧ fs.getFileAsStream F' (OutputFileName O)
          = Some (SimpleTable.write T true))
       ∨ (SimpleTable.getColumnId T "Properties" ≠ (-1)%Z
          ∧ fs.getFileAsStream F' (OutputFileName O)
            = Some (SimpleTable.header_line T +:+ nl))).
Proof.
  intros Hfile Haddr (buf' & T & Hfile' & Hread & Hrun)%main_inv.
  rewrite Hfile in Hfile'. injection Hfile' as <-.
  exists T. split; [done|].
  destruct (filterTable_inv _ _ _ _ _ _ Hfile Hread Haddr Hrun)
    as [[Hcol ->] | (Hcol & _ & ->)]; [left|right];
    (split; [done|apply with_file_lookup]).
Qed.

Lemma main_writes_all_rows_or_none_witness :
  let F := Sample.files Sample.host_manifest "" in
  let F' := with_file F "t_filtered.table" Sample.host_manifest in
  fs.getFileAsStream F "t.table" = Some Sample.host_manifest
  ∧ addressable Sample.host_manifest
  ∧ main 1 Sample.options F = Normal F'
  ∧ ∃ T,
      SimpleTable.read Sample.host_manifest = Some T
      ∧ ((SimpleTable.getColumnId T "Properties" = (-1)%Z
          ∧ fs.getFileAsStream F' "t_filtered.table"
            = Some (SimpleTable.write T true))
         ∨ (SimpleTable.getColumnId T "Properties" ≠ (-1)%Z
            ∧ fs.getFileAsStream F' "t_filtered.table"
              = Some (SimpleTable.header_line T +:+ nl))).
Proof.
  split; [reflexivity|]. split; [reflexivity|]. split; [vm_compute; reflexivity|].
  apply (main_writes_all_rows_or_none 1 Sample.options
           (Sample.files Sample.host_manifest "") Sample.host_manifest
           (with_file (Sample.files Sample.host_manifest "")
              "t_filtered.table" Sample.host_manifest));
    [reflexivity|reflexivity|vm_compute; reflexivity].
Defined.

(** X5: the run does not depend on the value of the target, nor on which
    existing file is given as the device configuration file: two command
    lines with the same input and output options, a target each and an
    existing configuration file each, have the same outcome. *)
Theorem main_reads_neither_target_nor_configuration fuel O F target config :
  is_empty (Target O) = false →
  is_empty target = false →
  is_empty (DeviceConfigFile O) = false →
  fs.exists_ F (DeviceConfigFile O) = true →
  is_empty config = false →
  fs.exists_ F config = true →
  main fuel (mkOptions (InputFilename O) (Output O) target config) F
  = main fuel O F.
Proof.
  intros H1 H2 H3 H4 H5 H6. unfold main. cbn [InputFilename Output Target DeviceConfigFile].
  by rewrite H1, H2, H3, H4, H5, H6.
Qed.

Lemma main_reads_neither_target_nor_configuration_witness :
  let F := Sample.files Sample.manifest Sample.other_section in
  is_empty (Target Sample.options) = false
  ∧ is_empty "nvidia_gpu_sm_80" = false
  ∧ is_empty (DeviceConfigFile Sample.options) = false
  ∧ fs.exists_ F (DeviceConfigFile Sample.options) = true
  ∧ is_empty "a.prop" = false
  ∧ fs.exists_ F "a.prop" = true
  ∧ main 1 (mkOptions "t.table" "" "nvidia_gpu_sm_80" "a.prop") F
    = main 1 Sample.options F.
Proof.
  do 6 (split; [reflexivity|]).
  apply (main_reads_neither_target_nor_configuration 1 Sample.options
           (Sample.files Sample.manifest Sample.other_section)
           "nvidia_gpu_sm_80" "a.prop"); reflexivity.
Defined.

(** ** Rows that stop the run *)

(** The rows that pass are left behind; the first other row decides. *)
Lemma check_rows_after_passes fuel F T before R after :
  Forall (passes F T) before →
  check_rows (S fuel) F T (before ++ R :: after)
  = (_ ← check_property_file (S fuel) F (SimpleTable.getCell T R "Properties");
     check_rows (S fuel) F T after).
Proof.
  induction 1 as [|R' before (Properties & Hfile & Hb) _ IH]; [done|].
  cbn [app check_rows].
  by rewrite (check_property_file_benign _ _ _ Hfile _ Hb).
Qed.

Lemma filterTable_stops fuel O F T (r : Outcome unit) :
  SimpleTable.getColumnId T "Properties" ≠ (-1)%Z →
  check_rows fuel F T (SimpleTable.Rows T) = r →
  (∀ u, r ≠ Normal u) →
  filterTable fuel O F T = (_ ← r; Undefined).
Proof.
  intros Hcol Hrows Hr. unfold filterTable.
  apply Z.eqb_neq in Hcol. rewrite Hcol, Hrows.
  destruct r as [u| | |]; [by destruct (Hr u)|done..].
Qed.



Lemma skip_to_section_misses LI :
  SECTION ∉ map text LI → skip_to_section LI = Undefined.
Proof.
  induction LI as [|L LI IH]; [done|].
  cbn [map]. intros [HL Hrest]%not_elem_of_cons.
  cbn [skip_to_section]. unfold StringRef.equals.
  destruct (String.eqb (text L) SECTION) eqn:E; [|by apply IH].
  apply String.eqb_eq in E. congruence.
Qed.

Lemma passes_text_passes F T rows :
  Forall (passes_text F T) rows → Forall (passes F T) rows.
Proof.
  intros H. eapply Forall_impl; [exact H|].
  intros R (Properties & Hfile & _ & Hb). by exists Properties.
Qed.

(** X7: when the text of the section header occurs in a property file of
    plain text lines, but no line of the file is the header, the loop that
    looks for the header line runs past the end of the file: the behaviour of
    the run is undefined, whatever the fuel, the later rows and the other
    files. *)
Theorem header_inside_a_line_is_undefined fuel O F T before R after Properties :
  SimpleTable.getColumnId T "Properties" ≠ (-1)%Z →
  SimpleTable.Rows T = before ++ R :: after →
  Forall (passes_text F T) before →
  fs.getFileAsStream F (SimpleTable.getCell T R "Properties") = Some Properties →
  text_file Properties = true →
  is_Some (StringRef.find Properties SECTION) →
  SECTION ∉ lines Properties →
  filterTable (S fuel) O F T = Undefined.
Proof.
  intros Hcol Hrows Hbefore%passes_text_passes Hfile _ [n Hfind] Hlines.
  rewrite (filterTable_stops _ _ _ _ Undefined); try done.
  rewrite Hrows, check_rows_after_passes by done.
  unfold check_property_file. rewrite Hfile, Hfind.
  by rewrite skip_to_section_misses.
Qed.

Lemma header_inside_a_line_is_undefined_witness :
  let F := Sample.files Sample.manifest Scenario.header_in_a_line in
  SimpleTable.getColumnId Sample.manifest_table "Properties" ≠ (-1)%Z
  ∧ SimpleTable.Rows Sample.manifest_table = [] ++ ["a.bc"; "a.prop"] :: []
  ∧ Forall (passes_text F Sample.manifest_table) []
  ∧ fs.getFileAsStream F "a.prop" = Some Scenario.header_in_a_line
  ∧ text_file Scenario.header_in_a_line = true
  ∧ StringRef.find Scenario.header_in_a_line SECTION = Some 4
  ∧ lines Scenario.header_in_a_line
    = ["see [SYCL/device requirements]"; "aspects|abc"]
  ∧ filterTable 1 Sample.options F Sample.manifest_table = Undefined.
Proof.
  split; [discriminate|]. split; [reflexivity|]. split; [constructor|].
  split; [reflexivity|]. split; [reflexivity|]. split; [reflexivity|].
  split; [reflexivity|].
  apply (header_inside_a_line_is_undefined 0 Sample.options
           (Sample.files Sample.manifest Scenario.header_in_a_line)
           Sample.manifest_table [] ["a.bc"; "a.prop"] []
           Scenario.header_in_a_line);
    [discriminate|reflexivity|constructor|reflexivity|reflexivity|by eexists|].
  apply (bool_decide_unpack
           (SECTION ∉ lines Scenario.header_in_a_line)).
  vm_compute. exact I.
Defined.

(** ** The output file *)

Lemma write_without_rows T :
  SimpleTable.Rows T = [] →
  SimpleTable.write T true = SimpleTable.header_line T +:+ nl.
Proof.
  intros H. unfold SimpleTable.write. rewrite H.
  cbn [SimpleTable.row_lines]. apply append_empty.
Qed.

(** X8: a table without rows, read from an input file of plain text lines,
    with or without a [Properties] column: [filterTable] returns, the file at
    the output path then holds the header line of the table and nothing
    else, and the loop over the entries is not entered (no fuel is
    needed). *)
Theorem table_without_rows_gives_its_header fuel O F buf T :
  fs.getFileAsStream F (InputFilename O) = Some buf →
  addressable buf →
  text_file buf = true →
  SimpleTable.read buf = Some T →
  SimpleTable.Rows T = [] →
  creatable F (OutputFileName O) = true →
  ∃ F',
    filterTable fuel O F T = Normal F'
    ∧ fs.getFileAsStream F' (OutputFileName O)
      = Some (SimpleTable.header_line T +:+ nl)
    ∧ (fs.getFileAsStream F' (OutputFileName O) ≫= SimpleTable.read)
      = Some T.
Proof.
  intros Hfile Haddr _ Hread Hrows Hopen.
  exists (with_file F (OutputFileName O) (SimpleTable.header_line T +:+ nl)).
  split; [|rewrite with_file_lookup; split; [done|]].
  - destruct (decide (SimpleTable.getColumnId T "Properties" = (-1)%Z))
      as [Hcol|Hcol].
    + rewrite filterTable_copies by done. by rewrite write_without_rows.
    + rewrite (filterTable_after_rows O F buf T) by (done || by rewrite Hrows).
      rewrite write_output_creatable by done.
      by rewrite write_without_rows.
  - cbn [mbind option_bind]. rewrite <- (write_without_rows T) by done.
    apply read_write. by eapply read_encodable.
Qed.

Lemma table_without_rows_gives_its_header_witness :
  let F := Sample.files Scenario.empty_manifest "" in
  fs.getFileAsStream F "t.table" = Some Scenario.empty_manifest
  ∧ addressable Scenario.empty_manifest
  ∧ text_file Scenario.empty_manifest = true
  ∧ SimpleTable.read Scenario.empty_manifest = Some Scenario.empty_table
  ∧ SimpleTable.Rows Scenario.empty_table = []
  ∧ creatable F "t_filtered.table" = true
  ∧ ∃ F',
      filterTable 0 Sample.options F Scenario.empty_table = Normal F'
      ∧ fs.getFileAsStream F' "t_filtered.table"
        = Some ("[Code|Properties]" +:+ nl)
      ∧ (fs.getFileAsStream F' "t_filtered.table" ≫= SimpleTable.read)
        = Some Scenario.empty_table.
Proof.
  do 6 (split; [reflexivity|]).
  apply (table_without_rows_gives_its_header 0 Sample.options
           (Sample.files Scenario.empty_manifest "")
           Scenario.empty_manifest Scenario.empty_table); reflexivity.
Defined.




(** X10: on a command line with an input file of plain text lines that
    holds a table with a [Properties] column, a target and an existing device
    configuration file, when every row passes, on a property file of plain
    text lines, and the output file can be opened, [main] returns and the
    file at the output path then holds the first line of the input file,
    followed by a line break, and nothing else. *)
Theorem main_writes_the_first_line fuel O F buf T :
  is_empty (InputFilename O) = false →
  is_empty (Target O) = false →
  is_empty (DeviceConfigFile O) = false →
  fs.exists_ F (DeviceConfigFile O) = true →
  fs.getFileAsStream F (InputFilename O) = Some buf →
  addressable buf →
  text_file buf = true →
  SimpleTable.read buf = Some T →
  SimpleTable.getColumnId T "Properties" ≠ (-1)%Z →
  Forall (passes_text F T) (SimpleTable.Rows T) →
  creatable F (OutputFileName O) = true →
  ∃ F',
    main (S fuel) O F = Normal F'
    ∧ fs.getFileAsStream F' (OutputFileName O)
      = Some (List.hd EmptyString (lines buf) +:+ nl).
Proof.
  intros HI HT HD HDe Hfile Haddr _ Hread Hcol Hrows%passes_text_passes Hopen.
  exists (with_file F (OutputFileName O)
            (List.hd EmptyString (lines buf) +:+ nl)).
  split; [|apply with_file_lookup].
  rewrite (main_calls_filterTable O F buf T) by done.
  rewrite (filterTable_after_rows O F buf T)
    by (done || by apply check_rows_benign).
  rewrite write_output_creatable by done.
  rewrite write_without_rows by done.
  unfold lines. rewrite <- deref_text.
  by rewrite (first_line_is_header buf T).
Qed.

Lemma main_writes_the_first_line_witness :
  let F := Scenario.files2 Sample.no_entries (Some Sample.other_section) in
  let O := Sample.options in
  is_empty (InputFilename O) = false
  ∧ is_empty (Target O) = false
  ∧ is_empty (DeviceConfigFile O) = false
  ∧ fs.exists_ F (DeviceConfigFile O) = true
  ∧ fs.getFileAsStream F (InputFilename O) = Some Scenario.manifest2
  ∧ addressable Scenario.manifest2
  ∧ text_file Scenario.manifest2 = true
  ∧ SimpleTable.read Scenario.manifest2 = Some Scenario.table2
  ∧ SimpleTable.getColumnId Scenario.table2 "Properties" ≠ (-1)%Z
  ∧ Forall (passes_text F Scenario.table2) (SimpleTable.Rows Scenario.table2)
  ∧ creatable F (OutputFileName O) = true
  ∧ ∃ F',
      main 1 O F = Normal F'
      ∧ fs.getFileAsStream F' "t_filtered.table"
        = Some ("[Code|Properties]" +:+ nl).
Proof.
  assert (Forall (passes_text (Scenario.files2 Sample.no_entries
                                 (Some Sample.other_section)) Scenario.table2)
            (SimpleTable.Rows Scenario.table2)) as Hp.
  { constructor; [|constructor; [|constructor]].
    - exists Sample.no_entries.
      split; [reflexivity|]. split; [reflexivity|header_then (@nil string)].
    - exists Sample.other_section.
      split; [reflexivity|]. split; [reflexivity|left; reflexivity]. }
  do 8 (split; [reflexivity|]). split; [discriminate|].
  split; [exact Hp|]. split; [reflexivity|].
  apply (main_writes_the_first_line 0 Sample.options
           (Scenario.files2 Sample.no_entries (Some Sample.other_section))
           Scenario.manifest2 Scenario.table2);
    [reflexivity|reflexivity|reflexivity|reflexivity|reflexivity|reflexivity
    |reflexivity|reflexivity|discriminate|exact Hp|reflexivity].
Defined.

(** ** The default output path, again *)

Lemma last_Forall (P : string → Prop) l d :
  Forall P l → P d → P (List.last l d).
Proof.
  induction 1 as [|x l Hx Hl IH]; [done|].
  intros Hd. destruct l as [|y l]; [done|]. by apply IH.
Qed.

Lemma filename_without_separator p :
  has_char path.SEP (path.filename p) = false.
Proof.
  unfold path.filename. by apply last_Forall; [apply split_pieces|].
Qed.

Lemma default_output_without_separator O :
  is_empty (Output O) = true →
  has_char path.SEP (OutputFileName O) = false.
Proof.
  intros Hout. unfold OutputFileName. rewrite Hout.
  pose proof (filename_without_separator (InputFilename O)) as Hf.
  rewrite <- stem_extension, has_char_app in Hf.
  apply orb_false_iff in Hf as [Hs He].
  by rewrite !has_char_app, Hs, He.
Qed.

(** X11: without [-o], the output path is never the input path: by default
    the tool does not write over the table it reads. *)
Theorem default_output_is_not_the_input O :
  is_empty (Output O) = true →
  OutputFileName O ≠ InputFilename O.
Proof.
  intros Hout Heq.
  pose proof (default_output_without_separator O Hout) as Hsep.
  rewrite Heq in Hsep.
  pose proof (filename_plain _ Hsep) as Hf.
  pose proof (f_equal StringRef.size Heq) as Hsize.
  unfold OutputFileName in Hsize. rewrite Hout in Hsize.
  rewrite !size_app in Hsize.
  pose proof (f_equal StringRef.size (stem_extension (InputFilename O))) as Hse.
  rewrite size_app, Hf in Hse.
  change (StringRef.size "_filtered") with 9 in Hsize. lia.
Qed.

Lemma default_output_is_not_the_input_witness :
  is_empty (Output Sample.options) = true
  ∧ OutputFileName Sample.options ≠ InputFilename Sample.options.
Proof.
  split; [reflexivity|].
  apply (default_output_is_not_the_input Sample.options). reflexivity.
Defined.

(** ** The read in the [aspects] branch *)

Lemma bytes_length buf :
  length (MemoryBuffer.bytes buf) = StringRef.size buf + 1.
Proof.
  unfold MemoryBuffer.bytes. rewrite length_app, length_map. cbn [length].
  f_equal. unfold StringRef.size.
  induction buf as [|a buf IH]; [done|].
  exact (f_equal S IH).
Qed.

(** The read is defined exactly when its four bytes lie in the buffer, the
    terminating NUL included. *)
Lemma load_u32_defined buf p :
  is_Some (MemoryBuffer.load_u32 buf p) ↔ p + 4 ≤ StringRef.size buf + 1.
Proof.
  rewrite <- bytes_length. unfold MemoryBuffer.load_u32.
  pose proof (length_drop (MemoryBuffer.bytes buf) p) as Hlen.
  destruct (drop p (MemoryBuffer.bytes buf)) as [|b0 [|b1 [|b2 [|b3 l]]]];
    cbn [length] in Hlen; split; intros H;
    try (by destruct H); try lia; by eexists.
Qed.

(** X13: when the loop over the entries stands on a line of the buffer that
    is the key [aspects] alone, and fewer than three bytes of the file follow
    that line, the four bytes read as [Array[0]] do not all lie in the
    buffer, its terminating NUL included: the behaviour is undefined. *)
Theorem read_after_bare_aspects_leaves_the_buffer fuel buf before LI :
  line_iterator.make buf = before ++ LI →
  text (line_iterator.deref LI) = "aspects" →
  StringRef.size buf < data (line_iterator.deref LI) + 10 →
  requirements_loop (S fuel) buf LI = Undefined.
Proof.
  intros _ Htext Hsize.
  assert (payload_data (line_iterator.deref LI) (StringRef.size "aspects|")
          = data (line_iterator.deref LI) + 7) as Hp.
  { unfold payload_data. by rewrite Htext. }
  cbn [requirements_loop]. rewrite Htext, Hp. cbn [recognized].
  destruct (MemoryBuffer.load_u32 buf _) as [v|] eqn:Hload; [|done].
  assert (is_Some (MemoryBuffer.load_u32 buf
                     (data (line_iterator.deref LI) + 7))) as Hs
    by by eexists.
  apply load_u32_defined in Hs. lia.
Qed.

Lemma read_after_bare_aspects_leaves_the_buffer_witness :
  let LI := [mkLine 27 "aspects"] in
  line_iterator.make Sample.bare_aspects_at_end = [mkLine 0 SECTION] ++ LI
  ∧ text (line_iterator.deref LI) = "aspects"
  ∧ StringRef.size Sample.bare_aspects_at_end < 27 + 10
  ∧ requirements_loop 1 Sample.bare_aspects_at_end LI = Undefined.
Proof.
  split; [reflexivity|]. split; [reflexivity|]. split; [vm_compute; lia|].
  apply (read_after_bare_aspects_leaves_the_buffer 0
           Sample.bare_aspects_at_end [mkLine 0 SECTION] [mkLine 27 "aspects"]);
    [reflexivity|reflexivity|vm_compute; lia].
Defined.
